(** * rainbows.model: the validation engine, embedded and verified

    Shallow embedding of [rainbows/model/builtin_validators.py],
    [rainbows/model/exceptions.py], [rainbows/model/model.py] and
    [rainbows/model/record.py], and of the parts of the framework around
    them that compute without the file system or the scheduler:
    [rainbows/controller/context.py] with the hook of
    [rainbows/database/abc_driver.py], [order_filepaths] of
    [rainbows/bootstrap/run.py] and [rainbows/bootstrap/metadata.py].

    Conventions.
    - A Python [str] is a [string] over ASCII; [str.lower] and [int(str)]
      are modelled on that alphabet.  [int(str)] and [str(int)] raise
      [ValueError] beyond 4300 digits, the interpreter's default limit.
    - A Python [dict] is an association list in insertion order, because
      the code iterates over dicts and the order decides which error is
      raised first.
    - A call either returns or raises: [res A].  Coroutines are run to
      completion where they are awaited, so [await f(x)] is [f x].
    - Exception messages are left out; a [ValidationError] keeps its
      [key_name].
    - [float(str)], [str(float)], [datetime.fromtimestamp] and
      [datetime.fromisoformat] belong to the interpreter, not to this
      repository: they are the fields of a [runtime]. *)

From Stdlib Require Import ZArith List String Ascii Bool Lia DecimalString.
From Stdlib Require Import DecimalPos Sorted Permutation.
From Stdlib Require DecimalFacts DecimalN.
Import ListNotations.
Local Open Scope string_scope.
Local Open Scope Z_scope.

Set Implicit Arguments.
Set Warnings "-register-all".

(** ** Python-level helpers *)

Module Py.

(** [str.startswith]. *)
Definition startswith (s p : string) : bool := String.prefix p s.

Definition ascii_lower (c : ascii) : ascii :=
  let n := nat_of_ascii c in
  if ((65 <=? n) && (n <=? 90))%nat then ascii_of_nat (n + 32) else c.

(** [str.lower]. *)
Fixpoint lower (s : string) : string :=
  match s with
  | EmptyString => EmptyString
  | String c r => String (ascii_lower c) (lower r)
  end.

(** [s in [a, b, ...]] for strings. *)
Definition str_in (s : string) (l : list string) : bool :=
  existsb (String.eqb s) l.

(** Characters skipped by [int(str)] on both ends. *)
Definition is_space (c : ascii) : bool :=
  let n := nat_of_ascii c in
  (((9 <=? n) && (n <=? 13)) || (n =? 32))%nat.

Definition digit_of (c : ascii) : option Z :=
  let n := nat_of_ascii c in
  if ((48 <=? n) && (n <=? 57))%nat then Some (Z.of_nat (n - 48)) else None.

Fixpoint lstrip (s : string) : string :=
  match s with
  | String c r => if is_space c then lstrip r else s
  | EmptyString => EmptyString
  end.

Fixpoint rev_str (acc s : string) : string :=
  match s with
  | EmptyString => acc
  | String c r => rev_str (String c acc) r
  end.

Definition strip (s : string) : string :=
  rev_str "" (lstrip (rev_str "" (lstrip s))).

(** Decimal digits, single underscores allowed between two digits. *)
Fixpoint digits (acc : Z) (after_digit : bool) (s : string) : option Z :=
  match s with
  | EmptyString => if after_digit then Some acc else None
  | String c r =>
      match digit_of c with
      | Some d => digits (10 * acc + d) true r
      | None =>
          if (Ascii.eqb c "_" && after_digit)%bool then digits acc false r
          else None
      end
  end.

(** The interpreter converts no integer of more digits than this to or
    from a decimal string ([sys.get_int_max_str_digits()], at its
    default). *)
Definition int_max_str_digits : nat := 4300.

(** The digits of a numeral: sign and underscores do not count, leading
    zeros do. *)
Fixpoint count_digits (s : string) : nat :=
  match s with
  | EmptyString => O
  | String c r =>
      match digit_of c with
      | Some _ => S (count_digits r)
      | None => count_digits r
      end
  end.

(** [int(s)] for a string; [None] stands for [ValueError], that of a
    numeral over the limit included. *)
Definition int_of_str (s : string) : option Z :=
  let numeral r :=
    if (count_digits r <=? int_max_str_digits)%nat then digits 0 false r
    else None in
  match strip s with
  | String "-" r => option_map Z.opp (numeral r)
  | String "+" r => numeral r
  | r => numeral r
  end.

(** The decimal numeral of an integer. *)
Definition str_of_int (n : Z) : string :=
  NilZero.string_of_int (Z.to_int n).

(** [str(n)] for an integer; [None] stands for the [ValueError] of a
    numeral over the limit. *)
Definition str_int (n : Z) : option string :=
  let s := str_of_int n in
  if (count_digits s <=? int_max_str_digits)%nat then Some s else None.

(** *** Dictionaries: association lists in insertion order *)

(** Keys are compared with a boolean equality. *)
Class Key (K : Type) := keqb : K -> K -> bool.

#[export] Instance Key_string : Key string := String.eqb.

(** The keys of the validator registry: [None] or a string. *)
#[export] Instance Key_option : Key (option string) :=
  fun a b =>
    match a, b with
    | Some x, Some y => String.eqb x y
    | None, None => true
    | _, _ => false
    end.

(** The boolean equality of a key type decides [=]. *)
Class KeyOk (K : Type) (E : Key K) :=
  keqb_eq : forall a b : K, keqb a b = true <-> a = b.
Arguments KeyOk K {E}.

Section Dict.
Context {K V : Type} `{Key K}.

Definition dict := list (K * V).

Fixpoint get (k : K) (d : dict) : option V :=
  match d with
  | [] => None
  | (k', v) :: r => if keqb k k' then Some v else get k r
  end.

(** [k in d]. *)
Definition mem (k : K) (d : dict) : bool :=
  match get k d with Some _ => true | None => false end.

(** [d[k] = v]: an existing key keeps its place, a new one goes last. *)
Fixpoint set (k : K) (v : V) (d : dict) : dict :=
  match d with
  | [] => [(k, v)]
  | (k', v') :: r => if keqb k k' then (k', v) :: r else (k', v') :: set k v r
  end.

(** [del d[k]] for a key that is present. *)
Fixpoint del (k : K) (d : dict) : dict :=
  match d with
  | [] => []
  | (k', v') :: r => if keqb k k' then r else (k', v') :: del k r
  end.

Definition keys (d : dict) : list K := map fst d.

(** No key occurs twice, as in every Python dict. *)
Fixpoint unique_keys (d : dict) : bool :=
  match d with
  | [] => true
  | (k, _) :: r => (negb (mem k r) && unique_keys r)%bool
  end.
End Dict.
Arguments dict K V : clear implicits.

(** [sub in s] for strings. *)
Fixpoint contains (sub s : string) : bool :=
  (String.prefix sub s
   || match s with
      | EmptyString => false
      | String _ r => contains sub r
      end)%bool.

(** [l.sort()] on a list of strings.  The order on strings is total and
    two strings that compare equal are the same string, so the sorted
    list is determined by the list; it is built here by insertion. *)
Fixpoint insert_sorted (x : string) (l : list string) : list string :=
  match l with
  | [] => [x]
  | y :: r => if String.leb x y then x :: l else y :: insert_sorted x r
  end.

Definition sort (l : list string) : list string :=
  fold_right insert_sorted [] l.

(** [str.endswith]. *)
Definition endswith (s p : string) : bool :=
  String.prefix (rev_str "" p) (rev_str "" s).

(** A capital letter of [A-Z]. *)
Definition is_upper (c : ascii) : bool :=
  let n := nat_of_ascii c in
  ((65 <=? n) && (n <=? 90))%nat.

End Py.
Export (hints) Py.

Definition sdict (V : Type) : Type := Py.dict string V.

(** ** exceptions.py *)

Inductive exc : Type :=
| ValidationError (key_name : string)
| TypeError
| ValueError
| OverflowError
| OSError
| RuntimeError
| AttributeError
| KeyError
| OtherError (name : string).

(** The [key_name] property of a [ValidationError]. *)
Definition key_name (e : exc) : option string :=
  match e with ValidationError k => Some k | _ => None end.

Inductive res (A : Type) : Type :=
| Ok (a : A)
| Raise (e : exc).
Arguments Ok {A} a.
Arguments Raise {A} e.

Definition bind {A B} (m : res A) (f : A -> res B) : res B :=
  match m with Ok a => f a | Raise e => Raise e end.

Notation "x <- m ;; k" := (bind m (fun x => k))
  (at level 61, m at next level, right associativity).

(** ** Values *)

(** A float is kept as its binary64 bit pattern, a datetime as its fields. *)
Definition pyfloat := Z.

Record pydatetime := mk_datetime {
  dt_year : Z; dt_month : Z; dt_day : Z;
  dt_hour : Z; dt_minute : Z; dt_second : Z; dt_microsecond : Z;
  dt_utcoffset : option Z
}.

Inductive value : Type :=
| VNone
| VBool (b : bool)
| VInt (n : Z)
| VFloat (f : pyfloat)
| VStr (s : string)
| VDatetime (d : pydatetime)
| VOther (type_name : string).   (* an object of any other type *)

(** The classes that key [BUILT_IN_VALIDATORS]. *)
Inductive pytype : Type := t_bool | t_str | t_int | t_float | t_datetime.

(** [isinstance(x, t)]; [bool] is a subclass of [int]. *)
Definition isinstance (x : value) (t : pytype) : bool :=
  match t, x with
  | t_bool, VBool _ => true
  | t_str, VStr _ => true
  | t_int, VInt _ => true
  | t_int, VBool _ => true
  | t_float, VFloat _ => true
  | t_datetime, VDatetime _ => true
  | _, _ => false
  end.

(** The argument of [fromtimestamp]: an int (a bool counts as 0 or 1) or a
    float. *)
Inductive number : Type := NInt (n : Z) | NFloat (f : pyfloat).

Definition as_number (x : value) : option number :=
  match x with
  | VInt n => Some (NInt n)
  | VBool b => Some (NInt (if b then 1 else 0))
  | VFloat f => Some (NFloat f)
  | _ => None
  end.

(** The interpreter's own conversions. *)
Record runtime := {
  float_of_str : string -> option pyfloat;      (* float(s); None: ValueError *)
  str_of_float : pyfloat -> string;             (* str(x) *)
  fromtimestamp : number -> res pydatetime;     (* datetime.datetime.fromtimestamp *)
  fromisoformat : string -> option pydatetime   (* None: ValueError *)
}.

(** ** builtin_validators.py *)

Module BuiltinValidators.
Section Coercers.
Variable rt : runtime.

Definition _validate_bool (key : string) (x : value) : res value :=
  if isinstance x t_bool then Ok x
  else
    let fallthrough := Raise (ValidationError key) in
    if isinstance x t_str then
      let l := Py.lower key in
      if Py.str_in l ["yes"; "true"; "y"; "t"] then Ok (VBool true)
      else if Py.str_in l ["no"; "false"; "n"; "f"] then Ok (VBool false)
      else fallthrough
    else fallthrough.

Definition _validate_str (key : string) (x : value) : res value :=
  match x with
  | VStr _ => Ok x                                           (* isinstance(x, str) *)
  | VBool b => Ok (VStr (if b then "true" else "false"))     (* isinstance(x, bool) *)
  | VInt n =>                                                (* isinstance(x, (int, float)) *)
      match Py.str_int n with
      | Some s => Ok (VStr s)
      | None => Raise ValueError                             (* str(x) raises *)
      end
  | VFloat f => Ok (VStr (str_of_float rt f))
  | _ => Raise (ValidationError key)
  end.

Definition _validate_int (key : string) (x : value) : res value :=
  if isinstance x t_int then Ok x
  else
    match x with
    | VStr s =>
        match Py.int_of_str s with
        | Some n => Ok (VInt n)
        | None => Raise (ValidationError key)
        end
    | _ => Raise (ValidationError key)
    end.

Definition _validate_float (key : string) (x : value) : res value :=
  if isinstance x t_float then Ok x
  else
    match x with
    | VStr s =>
        match float_of_str rt s with
        | Some f => Ok (VFloat f)
        | None => Raise (ValidationError key)
        end
    | _ => Raise (ValidationError key)
    end.

Definition _validate_datetime (key : string) (x : value) : res value :=
  if isinstance x t_datetime then Ok x
  else
    match as_number x with
    | Some n =>
        (* try: return fromtimestamp(x) / except: pass *)
        match fromtimestamp rt n with
        | Ok d => Ok (VDatetime d)
        | Raise _ => Raise (ValidationError key)
        end
    | None =>
        match x with
        | VStr s =>
            (* try: return fromtimestamp(int(x))
               except ValueError: return fromisoformat(x) *)
            let in_try :=
              match Py.int_of_str s with
              | Some n => fromtimestamp rt (NInt n)
              | None => Raise ValueError
              end in
            match in_try with
            | Ok d => Ok (VDatetime d)
            | Raise ValueError =>
                match fromisoformat rt s with
                | Some d => Ok (VDatetime d)
                | None => Raise ValueError
                end
            | Raise e => Raise e
            end
        | _ => Raise (ValidationError key)
        end
    end.

(** [BUILT_IN_VALIDATORS[t]] for the five registered classes. *)
Definition BUILT_IN_VALIDATORS (t : pytype) : string -> value -> res value :=
  match t with
  | t_bool => _validate_bool
  | t_str => _validate_str
  | t_int => _validate_int
  | t_float => _validate_float
  | t_datetime => _validate_datetime
  end.

End Coercers.
End BuiltinValidators.
Import BuiltinValidators.

(** ** The [typing] objects used as annotations *)

(** A class-level [__validate__]: it takes the value, or the value and the
    key.  Synchronous and asynchronous hooks are not told apart. *)
Inductive hook : Type :=
| Hook1 (f : value -> res value)
| Hook2 (f : value -> string -> res value).

Inductive pyclass : Type :=
| c_builtin (t : pytype)           (* bool, str, int, float, datetime.datetime *)
| c_NoneType                       (* type(None) *)
| c_user (name : string) (__validate__ : option hook).

Module typing.

(** The generic containers [typing.List], [typing.Dict], [typing.Set]. *)
Inductive container : Type := c_list | c_dict | c_set.

(** What stands where a type is expected: a class, [typing.Any],
    [typing.Union[...]], a subscripted container such as
    [typing.List[int]], or any other object ([None] among them).
    [typing] stores [type(None)] for a [None] written inside a union, so
    [Optional t] is [Union [t; NoneType]]. *)
Inductive ty : Type :=
| Obj (v : value)
| Cls (c : pyclass)
| Any
| Union (args : list ty)
| Alias (c : container) (args : list ty).

Definition NoneObj : ty := Obj VNone.

Definition NoneType : ty := Cls c_NoneType.
Definition Optional (t : ty) : ty := Union [t; NoneType].

(** What [typing.get_origin] returns: [typing.Union], or for a
    subscripted container the built-in class [list], [dict] or [set]
    (not [typing.List], [typing.Dict] or [typing.Set]). *)
Inductive origin : Type :=
| origin_Union
| origin_class (c : container).

(** [typing.get_origin]: [None] for classes, for [None] and for [Any]. *)
Definition get_origin (t : ty) : option origin :=
  match t with
  | Union _ => Some origin_Union
  | Alias c _ => Some (origin_class c)
  | _ => None
  end.

Definition get_args (t : ty) : list ty :=
  match t with Union args | Alias _ args => args | _ => [] end.

(** [t is None]. *)
Definition is_None (t : ty) : bool :=
  match t with Obj VNone => true | _ => false end.

(** [t == type(None)]. *)
Definition is_NoneType (t : ty) : bool :=
  match t with Cls c_NoneType => true | _ => false end.

End typing.
Import typing.

(** ** model.py: [_validate_attr] *)

Section ValidateAttr.
Variable rt : runtime.

(** [except (TypeError, ValidationError)]. *)
Definition caught_by_union (e : exc) : bool :=
  match e with
  | TypeError | ValidationError _ => true
  | _ => false
  end.

(** The branch [typing_origin is None]: a registered class goes to its
    coercer, any other object to its [__validate__], and an object
    without one is a [TypeError].  The values of [value] have none. *)
Definition validate_scalar (type_ : ty) (item : value) (key : string) : res value :=
  match type_ with
  | Cls (c_builtin t) => BUILT_IN_VALIDATORS rt t key item
  | Cls (c_user _ (Some (Hook1 f))) => f item
  | Cls (c_user _ (Some (Hook2 f))) => f item key
  | _ => Raise TypeError
  end.

(** The loop of the union branch, over the remaining [types]. *)
Section UnionLoop.
Variable rec : ty -> res value.

Fixpoint union_loop (types : list ty) (last_throw : option exc) : res value :=
  match types with
  | [] =>
      match last_throw with
      | Some e => Raise e
      | None => Raise TypeError      (* "Union for key ... was empty" *)
      end
  | type_ :: rest =>
      if negb (is_None type_) then
        match rec type_ with
        | Ok v => Ok v
        | Raise e =>
            if caught_by_union e then union_loop rest (Some e) else Raise e
        end
      else union_loop rest last_throw
  end.

(** A branch the loop passes over: it is [None], or it raised what the
    [except] clause catches. *)
Definition passed_over (u : ty) : Prop :=
  is_None u = true \/ exists e, rec u = Raise e /\ caught_by_union e = true.
End UnionLoop.

Fixpoint _validate_attr (type_ : ty) (item : value) (key : string) {struct type_}
  : res value :=
  match type_ with
  | Union types =>
      if (match item with VNone => true | _ => false end
          && existsb is_None types)%bool
      then Ok VNone                                    (* Fast path! *)
      else
        (fix loop (ts : list ty) (last_throw : option exc) : res value :=
           match ts with
           | [] =>
               match last_throw with
               | Some e => Raise e
               | None => Raise TypeError
               end
           | t :: rest =>
               if negb (is_None t) then
                 match _validate_attr t item key with
                 | Ok v => Ok v
                 | Raise e =>
                     if caught_by_union e then loop rest (Some e) else Raise e
                 end
               else loop rest last_throw
           end) types None
  | Alias _ _ =>
      (* the origin is the class [list], [dict] or [set]: it is none of
         [typing.Any], [typing.Union], [typing.Dict], [typing.List] and
         [typing.Set], whose branches are passed, and the last line raises
         "Unsupported typing type" *)
      Raise TypeError
  | _ => validate_scalar type_ item key
  end.

End ValidateAttr.

(** ** model.py: [Model] *)

(** A handler given to [add_validator]: one parameter (the value) or two
    (the value and the key). *)
Inductive handler : Type :=
| Handler1 (f : value -> res value)
| Handler2 (f : value -> string -> res value).

(** The form [add_validator] stores. *)
Definition two_params (h : handler) : value -> string -> res value :=
  match h with
  | Handler1 old_handler => fun a _ => old_handler a
  | Handler2 f => f
  end.

(** The [key_name] argument of [validates] and [add_validator]. *)
Inductive key_names : Type :=
| all_keys                       (* None *)
| one_key (k : string)
| many_keys (ks : list string).

Definition validator_registry : Type :=
  Py.dict (option string) (list (value -> string -> res value)).

(** An instance.  [__dict__] holds the attributes stored by
    [object.__setattr__] other than the five below, which are fields. *)
Record instance := mk_instance {
  __dict__ : sdict value;
  _defaults : sdict value;
  _items : sdict value;
  _attributes : sdict ty;
  _validators : option validator_registry;      (* None: never set *)
  _ignored_attrs : option (list string)         (* None: never set *)
}.

Definition with_dict d (s : instance) :=
  mk_instance d (_defaults s) (_items s) (_attributes s) (_validators s) (_ignored_attrs s).
Definition with_defaults d (s : instance) :=
  mk_instance (__dict__ s) d (_items s) (_attributes s) (_validators s) (_ignored_attrs s).
Definition with_items i (s : instance) :=
  mk_instance (__dict__ s) (_defaults s) i (_attributes s) (_validators s) (_ignored_attrs s).
Definition with_attributes a (s : instance) :=
  mk_instance (__dict__ s) (_defaults s) (_items s) a (_validators s) (_ignored_attrs s).
Definition with_validators v (s : instance) :=
  mk_instance (__dict__ s) (_defaults s) (_items s) (_attributes s) v (_ignored_attrs s).
Definition with_ignored_attrs i (s : instance) :=
  mk_instance (__dict__ s) (_defaults s) (_items s) (_attributes s) (_validators s) i.

(** A class-level attribute: its value and, for a magic default, the
    function found under [_rainbows_default], which receives the instance. *)
Record class_attr := {
  attr_value : value;
  _rainbows_default : option (instance -> res value)
}.

(** A subclass of [Model], as [__init__] sees it. *)
Record model_class := {
  __annotations__ : option (sdict ty);          (* None: no class declares any *)
  class_attrs : sdict class_attr;
  decorated : list (key_names * handler)        (* methods with _validates_keys, in dir() order *)
}.

(** What one call of [validate] leaves: what it returned or raised, the
    instance afterwards, and the keys [_validate_attr] was called for. *)
Record outcome := {
  returned : res (sdict value);
  self_after : instance;
  attr_calls : list string
}.

Module Model.
Section WithRuntime.
Variable rt : runtime.

(** [object.__getattribute__(self, name)] for a name that is none of the
    five fields: the instance's own attributes, then the class's. *)
Definition object_getattribute (cls : model_class) (self : instance) (name : string)
  : option class_attr :=
  match Py.get name (__dict__ self) with
  | Some v => Some {| attr_value := v; _rainbows_default := None |}
  | None => Py.get name (class_attrs cls)
  end.

(** [object.__delattr__(self, name)]: only an attribute of the instance
    itself can be deleted; [None] stands for [AttributeError]. *)
Definition object_delattr (self : instance) (name : string) : option instance :=
  if Py.mem name (__dict__ self)
  then Some (with_dict (Py.del name (__dict__ self)) self)
  else None.

(** [__getattr__], reached when the normal lookup fails. *)
Definition __getattr__ (self : instance) (name : string) : res value :=
  match Py.get name (_items self) with
  | Some v => Ok v
  | None =>
      match Py.get name (_defaults self) with
      | Some v => Ok v
      | None => Raise AttributeError
      end
  end.

(** [self.name] / [getattr(self, name)] for a name that is none of the
    five fields. *)
Definition getattr (cls : model_class) (self : instance) (name : string) : res value :=
  match object_getattribute cls self name with
  | Some a => Ok (attr_value a)
  | None => __getattr__ self name
  end.

Definition __setattr__ (self : instance) (key : string) (v : value) : instance :=
  if (Py.startswith key "_"
      || Py.str_in key (match _ignored_attrs self with Some l => l | None => [] end))%bool
  then with_dict (Py.set key v (__dict__ self)) self
  else with_items (Py.set key v (_items self)) self.

Definition add_validator (self : instance) (key_name : key_names) (h : handler)
  : instance :=
  let validators :=
    match _validators self with Some v => v | None => [] end in
  let handler := two_params h in
  let keys :=
    match key_name with
    | all_keys => [None]
    | one_key k => [Some k]
    | many_keys ks => map Some ks
    end in
  let validators :=
    fold_left
      (fun vs k =>
         match Py.get k vs with
         | Some l => Py.set k (l ++ [handler])%list vs
         | None => Py.set k [handler] vs
         end)
      keys validators in
  with_validators (Some validators) self.

(** [for key in kwargs: if key.startswith("_"): del kwargs[key]].
    A dict iterator compares the dict's size with the size it started
    from each time it is asked for the next key, and raises
    [RuntimeError] when they differ. *)
Fixpoint drop_private_loop (di_used : nat) (pending : list string)
    (kwargs : sdict value) : res (sdict value) :=
  if negb (Nat.eqb (List.length kwargs) di_used) then Raise RuntimeError
  else
    match pending with
    | [] => Ok kwargs
    | key :: rest =>
        if Py.startswith key "_"
        then drop_private_loop di_used rest (Py.del key kwargs)
        else drop_private_loop di_used rest kwargs
    end.

(** [for attr_name in self._attributes: ...], with the same iterator. *)
Fixpoint attributes_loop (cls : model_class) (di_used : nat)
    (pending : list string) (self : instance) : res instance :=
  if negb (Nat.eqb (List.length (_attributes self)) di_used) then Raise RuntimeError
  else
    match pending with
    | [] => Ok self
    | attr_name :: rest =>
        if Py.startswith attr_name "_" then
          attributes_loop cls di_used rest
            (with_attributes (Py.del attr_name (_attributes self)) self)
        else
          (* try: item = object.__getattribute__(self, attr_name)
                  object.__delattr__(self, attr_name); found = True
             except AttributeError: pass *)
          match object_getattribute cls self attr_name with
          | None => attributes_loop cls di_used rest self
          | Some item =>
              match object_delattr self attr_name with
              | None => attributes_loop cls di_used rest self
              | Some self =>
                  match
                    match _rainbows_default item with
                    | Some rainbows_default => rainbows_default self
                    | None => Ok (attr_value item)
                    end
                  with
                  | Raise e => Raise e
                  | Ok item =>
                      attributes_loop cls di_used rest
                        (with_defaults (Py.set attr_name item (_defaults self)) self)
                  end
              end
          end
    end.

(** The constructor.  [_attributes] is the class's own [__annotations__]
    dict; the deletion of a private name from it is only followed here
    as far as the [RuntimeError] that ends the construction. *)
Definition __init__ (cls : model_class) (kwargs : sdict value) : res instance :=
  kwargs <- drop_private_loop (List.length kwargs) (Py.keys kwargs) kwargs ;;
  let self := mk_instance [] [] kwargs [] None None in
  let self :=
    fold_left (fun s d => add_validator s (fst d) (snd d)) (decorated cls) self in
  let self :=
    with_attributes
      (match __annotations__ cls with Some a => a | None => [] end) self in
  attributes_loop cls (List.length (_attributes self)) (Py.keys (_attributes self)) self.

Definition is_default (self : instance) (key : string) : bool :=
  if Py.mem key (_items self) then false else Py.mem key (_defaults self).

(** [attributes]: a copy of the schema. *)
Definition attributes (self : instance) : sdict ty := _attributes self.

(** [__eq__], given what [type(self) != type(other)] and [!=] on values
    answer.  The loop runs over the items of [self] only. *)
Fixpoint items_within (ne : value -> value -> bool)
    (entries : list (string * value)) (other_items : sdict value) : bool :=
  match entries with
  | [] => true
  | (key, v) :: rest =>
      match Py.get key other_items with
      | None => false                            (* key not in other_items *)
      | Some v' => if ne v v' then false else items_within ne rest other_items
      end
  end.

Definition __eq__ (ne : value -> value -> bool) (types_differ : bool)
    (self other : instance) : bool :=
  if types_differ then false
  else items_within ne (_items self) (_items other).

Definition __ne__ (ne : value -> value -> bool) (types_differ : bool)
    (self other : instance) : bool :=
  negb (__eq__ ne types_differ self other).

(** [del self.item] for a name that is none of the five fields. *)
Definition __delattr__ (self : instance) (item : string) : res instance :=
  match object_delattr self item with
  | Some self => Ok self
  | None =>
      if Py.mem item (_items self)
      then Ok (with_items (Py.del item (_items self)) self)
      else Raise AttributeError                  (* raise e from e *)
  end.

(** [del self[key]]. *)
Definition __delitem__ (self : instance) (key : string) : res instance :=
  if Py.mem key (_items self)
  then Ok (with_items (Py.del key (_items self)) self)
  else Raise KeyError.

Definition __contains__ (self : instance) (item : string) : bool :=
  Py.mem item (_items self).

(** [self[item]]. *)
Definition __getitem__ (self : instance) (item : string) : res value :=
  match Py.get item (_items self) with
  | Some v => Ok v
  | None =>
      match Py.get item (_defaults self) with
      | Some v => Ok v
      | None => Raise KeyError
      end
  end.

(** [self[key] = value]. *)
Definition __setitem__ (self : instance) (key : string) (v : value) : res instance :=
  if Py.startswith key "_" then Raise ValueError
  else Ok (with_items (Py.set key v (_items self)) self).

Definition ignore_attribute (self : instance) (key : string) : instance :=
  let ignored := match _ignored_attrs self with Some l => l | None => [] end in
  let self := with_ignored_attrs (Some ignored) self in
  let self :=
    if Py.mem key (_defaults self)
    then with_defaults (Py.del key (_defaults self)) self else self in
  let self :=
    match Py.get key (_items self) with
    | Some v =>
        let self := __setattr__ self key v in
        with_items (Py.del key (_items self)) self
    | None => self
    end in
  (* ignored.append(key): the list is the one stored in the instance *)
  with_ignored_attrs (Some (ignored ++ [key])%list) self.

(** *** [validate] *)

(** [typing.get_origin(value) is typing.Union and
     type(None) in typing.get_args(value)]. *)
Definition is_optional (type_ : ty) : bool :=
  (match get_origin type_ with Some origin_Union => true | _ => false end
   && existsb is_NoneType (get_args type_))%bool.

(** The first loop: the first key of the Item Store that the schema
    lacks, if any. *)
Fixpoint first_unknown (item_keys : list string) (attributes : sdict ty)
  : option string :=
  match item_keys with
  | [] => None
  | key :: rest =>
      if negb (Py.mem key attributes) then Some key
      else first_unknown rest attributes
  end.

(** The loop over [self._attributes.items()]. *)
Fixpoint reconcile (schema : list (string * ty)) (all_items : sdict value)
    (self : instance) (calls : list string) : outcome :=
  match schema with
  | [] => {| returned := Ok all_items; self_after := self; attr_calls := calls |}
  | (key, type_) :: rest =>          (* the source calls the type [value] *)
      let type_check (value_ : ty) (all_items : sdict value) (item : value) :=
        (* item_value = await _validate_attr(value, all_items[key], key) *)
        match _validate_attr rt value_ item key with
        | Raise e =>
            {| returned := Raise e; self_after := self;
               attr_calls := (calls ++ [key])%list |}
        | Ok item_value =>
            reconcile rest
              (Py.set key item_value all_items)
              (with_items (Py.set key item_value (_items self)) self)
              (calls ++ [key])%list
        end in
      match Py.get key all_items with
      | Some item => type_check type_ all_items item
      | None =>
          match Py.get key (_defaults self) with
          | Some default =>
              (* value = self._defaults[key]; all_items[key] = value:
                 the variable that held the type now holds the default,
                 and the call below receives it as the type *)
              type_check (Obj default) (Py.set key default all_items) default
          | None =>
              if is_optional type_
              then reconcile rest (Py.set key VNone all_items) self calls
              else
                {| returned := Raise (ValidationError key); self_after := self;
                   attr_calls := calls |}
          end
      end
  end.

(** [for h in handlers: value = await h(value, key)]. *)
Fixpoint run_handlers (handlers : list (value -> string -> res value))
    (v : value) (key : string) : res value :=
  match handlers with
  | [] => Ok v
  | h :: rest => v <- h v key ;; run_handlers rest v key
  end.

(** The inner function of [validate]; a bare [return] gives [None]. *)
Definition call_validators (custom_validators : validator_registry)
    (v : value) (key : string) : res value :=
  match Py.get (Some key) custom_validators with
  | None => Ok VNone                         (* except KeyError: return *)
  | Some handlers => run_handlers handlers v key
  end.

(** The loop over [all_items.items()].  It only assigns to keys that are
    present, so the entries it meets are those it started from. *)
Fixpoint chain_loop (custom_validators : validator_registry)
    (all_gobbler : list (value -> string -> res value))
    (entries : list (string * value)) (all_items : sdict value)
    (self : instance) : res (sdict value) * instance :=
  match entries with
  | [] => (Ok all_items, self)
  | (key, v) :: rest =>
      match (v <- run_handlers all_gobbler v key ;;
             call_validators custom_validators v key) with
      | Raise e => (Raise e, self)
      | Ok v =>
          chain_loop custom_validators all_gobbler rest
            (Py.set key v all_items)
            (with_items (Py.set key v (_items self)) self)
      end
  end.

Definition validate (self : instance) : outcome :=
  match first_unknown (Py.keys (_items self)) (_attributes self) with
  | Some key =>
      {| returned := Raise (ValidationError key); self_after := self;
         attr_calls := [] |}
  | None =>
      let all_items := _items self in                    (* a copy *)
      let typed := reconcile (_attributes self) all_items self [] in
      match returned typed with
      | Raise e => typed
      | Ok all_items =>
          let self := self_after typed in
          match _validators self with
          | Some ((_ :: _) as custom_validators) =>      (* a non-empty dict *)
              let all_gobbler :=
                match Py.get None custom_validators with
                | Some l => l
                | None => []
                end in
              let chained :=
                chain_loop custom_validators all_gobbler all_items all_items self in
              {| returned := fst chained; self_after := snd chained;
                 attr_calls := attr_calls typed |}
          | _ => typed
          end
      end
  end.

End WithRuntime.
End Model.

(** ** record.py: [Record] *)

Module record.

Definition __init__ (cls : model_class) (kwargs : sdict value) : res instance :=
  self <- Model.__init__ cls kwargs ;;
  let self := Model.ignore_attribute self "table_name" in
  let self := Model.ignore_attribute self "connection_name" in
  Ok self.

(** [SNAKE_REGEX.sub("_", s)]: the pattern matches the empty string in
    front of every capital letter other than the first character of [s],
    and an underscore goes in there. *)
Fixpoint snake_from (s : string) : string :=
  match s with
  | EmptyString => EmptyString
  | String c r =>
      if Py.is_upper c then String "_" (String c (snake_from r))
      else String c (snake_from r)
  end.

Definition SNAKE_REGEX_sub (s : string) : string :=
  match s with
  | EmptyString => EmptyString
  | String c r => String c (snake_from r)
  end.

(** [get_table_name], given the interpreter's [str()]. *)
Definition get_table_name (str_of : value -> string) (cls : model_class)
    (self : instance) : res string :=
  match Model.getattr cls self "table_name" with
  | Ok self_table_name => Ok (str_of self_table_name)
  | Raise _ =>                                   (* getattr gave _undefined *)
      name <- Model.getattr cls self "__name__" ;;
      match name with
      | VStr name =>
          let table_name := Py.lower (SNAKE_REGEX_sub name) in
          if Py.endswith table_name "s"
          then Ok (table_name ++ "es")
          else Ok (table_name ++ "s")
      | _ => Raise TypeError                     (* re.sub wants a string *)
      end
  end.

End record.

(** ** controller/context.py and the hook of database/abc_driver.py *)

Module context.
Section Context.
(** [F]: the bound [close] methods; [L]: event loops. *)
Variables F L : Type.

Record Context := {
  _autoclose_records : option (list F);       (* None after dont_autokill_iterators *)
  loop : L
}.

Definition __init__ (loop : L) : Context :=
  {| _autoclose_records := Some []; loop := loop |}.

Definition dont_autokill_iterators (self : Context) : Context :=
  {| _autoclose_records := None; loop := loop self |}.

Definition _autoclose_record (self : Context) (fn : F) : Context :=
  match _autoclose_records self with
  | None => self
  | Some l => {| _autoclose_records := Some (l ++ [fn])%list; loop := loop self |}
  end.

(** [AbstractRecordIterator._rainbows_autoclose(ctx)], for an iterator
    whose bound [close] is [close]. *)
Definition _rainbows_autoclose (close : F) (ctx : Context) : Context :=
  _autoclose_record ctx close.
End Context.
End context.

(** ** bootstrap/run.py: [order_filepaths] *)

Module run.

(** The loop that sorts the paths into three lists. *)
Fixpoint order_loop (l logger_related loop_related remainder : list string)
  : list string * list string * list string :=
  match l with
  | [] => (logger_related, loop_related, remainder)
  | item :: rest =>
      if Py.contains "logger" item
      then order_loop rest (logger_related ++ [item])%list loop_related remainder
      else if Py.contains "loop" item
      then order_loop rest logger_related (loop_related ++ [item])%list remainder
      else order_loop rest logger_related loop_related (remainder ++ [item])%list
  end.

Definition order_filepaths (l : list string) : list string :=
  let '(logger_related, loop_related, remainder) := order_loop l [] [] [] in
  (Py.sort logger_related ++ Py.sort loop_related ++ Py.sort remainder)%list.

End run.

(** ** bootstrap/metadata.py

    The object is followed through its three attributes that the methods
    read or write; the four path attributes, which no method touches,
    are left out.  What the methods ask of a logger is kept in
    [logger_calls], latest last. *)

Module metadata.
Section Metadata.
(** [Lg]: loggers; [Lp]: event loops. *)
Variables Lg Lp : Type.
Variable DefaultLogger : Lg.                   (* what [DefaultLogger()] builds *)
Variable new_event_loop : option Lp.           (* uvloop's; None: ImportError *)
Variable get_event_loop : Lp.                  (* asyncio.get_event_loop() *)

Inductive logger_call : Type :=
| warn_no_uvloop
| told_loop (loop : Lp).

Record _BootstrappingMetadata := {
  _bootstrapped : bool;
  _logger : option Lg;                         (* None: the attribute is not set *)
  _loop : option Lp;
  logger_calls : list (Lg * logger_call)
}.

Definition __init__ : _BootstrappingMetadata :=
  {| _bootstrapped := false; _logger := None; _loop := None; logger_calls := [] |}.

Definition bootstrapped (self : _BootstrappingMetadata) : bool := _bootstrapped self.

Definition _throw_if_bootstrapped (self : _BootstrappingMetadata) : res unit :=
  if _bootstrapped self then Raise TypeError else Ok tt.

(** The [logger] property. *)
Definition logger (self : _BootstrappingMetadata) : Lg * _BootstrappingMetadata :=
  match _logger self with
  | Some l => (l, self)
  | None =>
      (DefaultLogger,
       {| _bootstrapped := _bootstrapped self; _logger := Some DefaultLogger;
          _loop := _loop self; logger_calls := logger_calls self |})
  end.

Definition set_logger (self : _BootstrappingMetadata) (logger : Lg)
  : res _BootstrappingMetadata :=
  _ <- _throw_if_bootstrapped self ;;
  Ok {| _bootstrapped := _bootstrapped self; _logger := Some logger;
        _loop := _loop self; logger_calls := logger_calls self |}.

(** The [loop] property. *)
Definition loop (self : _BootstrappingMetadata) : Lp * _BootstrappingMetadata :=
  match _loop self with
  | Some l => (l, self)
  | None =>
      match new_event_loop with
      | Some l =>
          (l, {| _bootstrapped := _bootstrapped self; _logger := _logger self;
                 _loop := Some l; logger_calls := logger_calls self |})
      | None =>
          let '(lg, self) := logger self in      (* self.logger.warn(...) *)
          (get_event_loop,
           {| _bootstrapped := _bootstrapped self; _logger := _logger self;
              _loop := Some get_event_loop;
              logger_calls := (logger_calls self ++ [(lg, warn_no_uvloop)])%list |})
      end
  end.

Definition set_loop (self : _BootstrappingMetadata) (loop : Lp)
  : res _BootstrappingMetadata :=
  _ <- _throw_if_bootstrapped self ;;
  Ok {| _bootstrapped := _bootstrapped self; _logger := _logger self;
        _loop := Some loop; logger_calls := logger_calls self |}.

(** [self.logger.set_loop(self.loop)], then the flag. *)
Definition _post_bootstrap (self : _BootstrappingMetadata) : _BootstrappingMetadata :=
  let '(lg, self) := logger self in
  let '(lp, self) := loop self in
  {| _bootstrapped := true; _logger := _logger self; _loop := _loop self;
     logger_calls := (logger_calls self ++ [(lg, told_loop lp)])%list |}.

(** One use of the object from outside, and the object after it; a call
    that raises leaves the object as it was. *)
Inductive use : Type :=
| read_bootstrapped
| read_logger
| read_loop
| call_set_logger (logger : Lg)
| call_set_loop (loop : Lp)
| call_post_bootstrap.

Definition after (self : _BootstrappingMetadata) (u : use) : _BootstrappingMetadata :=
  match u with
  | read_bootstrapped => self
  | read_logger => snd (logger self)
  | read_loop => snd (loop self)
  | call_set_logger l =>
      match set_logger self l with Ok self => self | Raise _ => self end
  | call_set_loop l =>
      match set_loop self l with Ok self => self | Raise _ => self end
  | call_post_bootstrap => _post_bootstrap self
  end.

End Metadata.
End metadata.

(** ** A runtime to run the model on

    The statements below hold for every [runtime].  To evaluate the model
    on concrete inputs this one is used: a machine whose local time is UTC
    and whose conversions cover a fragment of CPython's: positive decimal
    integers below 2^53 for [float], the seconds of 1 January 1970 for
    [fromtimestamp], the form YYYY-MM-DD for [fromisoformat], and for
    [str] of a float the zeros, the infinities, the NaNs and the whole
    numbers below 2^53 in magnitude.  Outside the fragment the first
    three reject; [str_of_float], which cannot, answers with a question
    mark where CPython prints the shortest decimal that reads back.  The
    runtime is only applied inside the fragment, or where CPython rejects
    too. *)

Module SampleRuntime.

(** The binary64 pattern of an integer [0 < n < 2^53]. *)
Definition bits_of_pos (n : Z) : Z :=
  let e := Z.log2 n in
  (e + 1023) * 2 ^ 52 + (n * 2 ^ (52 - e) - 2 ^ 52).

Definition float_of_str (s : string) : option pyfloat :=
  match Py.int_of_str s with
  | Some n => if ((0 <? n) && (n <? 2 ^ 53))%bool then Some (bits_of_pos n) else None
  | None => None
  end.

(** The integer an exponent-and-fraction pattern stands for, when it is
    one. *)
Definition int_of_bits (b : Z) : option Z :=
  let e := b / 2 ^ 52 - 1023 in
  let m := b mod 2 ^ 52 + 2 ^ 52 in
  if ((0 <=? e) && (e <=? 52) && (m mod 2 ^ (52 - e) =? 0))%bool
  then Some (m / 2 ^ (52 - e)) else None.

(** [str(x)] from the pattern of [x]: sign bit, then exponent and
    fraction. *)
Definition str_of_float (f : pyfloat) : string :=
  let sign := if f <? 2 ^ 63 then "" else "-" in
  let b := f mod 2 ^ 63 in
  if b =? 0 then sign ++ "0.0"
  else if b / 2 ^ 52 =? 2047 then
    if b mod 2 ^ 52 =? 0 then sign ++ "inf" else "nan"
  else
    match int_of_bits b with
    | Some n => sign ++ Py.str_of_int n ++ ".0"
    | None => "?"
    end.

Definition fromtimestamp (x : number) : res pydatetime :=
  match x with
  | NInt n =>
      if ((0 <=? n) && (n <? 86400))%bool
      then Ok (mk_datetime 1970 1 1 (n / 3600) (n / 60 mod 60) (n mod 60) 0 None)
      else Raise OverflowError
  | NFloat _ => Raise OverflowError
  end.

Definition days_in_month (y m : Z) : Z :=
  if m =? 2 then
    if ((y mod 4 =? 0) && (negb (y mod 100 =? 0) || (y mod 400 =? 0)))%bool
    then 29 else 28
  else if ((m =? 4) || (m =? 6) || (m =? 9) || (m =? 11))%bool then 30 else 31.

(** A run of decimal digits and nothing else. *)
Fixpoint decimal (acc : Z) (s : string) : option Z :=
  match s with
  | EmptyString => Some acc
  | String c r =>
      match Py.digit_of c with
      | Some d => decimal (10 * acc + d) r
      | None => None
      end
  end.

Definition fromisoformat (s : string) : option pydatetime :=
  if negb (Nat.eqb (String.length s) 10) then None
  else
    match decimal 0 (substring 0 4 s),
          decimal 0 (substring 5 2 s),
          decimal 0 (substring 8 2 s) with
    | Some y, Some m, Some d =>
        if (String.eqb (substring 4 1 s) "-" && String.eqb (substring 7 1 s) "-"
            && (1 <=? y) && (1 <=? m) && (m <=? 12)
            && (1 <=? d) && (d <=? days_in_month y m))%bool
        then Some (mk_datetime y m d 0 0 0 0 None)
        else None
    | _, _, _ => None
    end.

Definition rt : runtime :=
  Build_runtime float_of_str str_of_float fromtimestamp fromisoformat.

End SampleRuntime.

(** ** Vocabulary of the statements *)

(** No validator is registered: [_validators] is unset or empty. *)
Definition no_validators (self : instance) : bool :=
  match _validators self with
  | Some (_ :: _) => false
  | _ => true
  end.

(** A class that has a coercer, or [Optional] of one. *)
Definition primitive_or_optional (t : ty) : bool :=
  match t with
  | Cls (c_builtin _) => true
  | Union [Cls (c_builtin _); Cls c_NoneType] => true
  | _ => false
  end.

(** The number a decimal numeral stands for, read after the digits that
    gave [acc]. *)
Fixpoint uint_value (acc : Z) (u : Decimal.uint) : Z :=
  match u with
  | Decimal.Nil => acc
  | Decimal.D0 r => uint_value (10 * acc + 0) r
  | Decimal.D1 r => uint_value (10 * acc + 1) r
  | Decimal.D2 r => uint_value (10 * acc + 2) r
  | Decimal.D3 r => uint_value (10 * acc + 3) r
  | Decimal.D4 r => uint_value (10 * acc + 4) r
  | Decimal.D5 r => uint_value (10 * acc + 5) r
  | Decimal.D6 r => uint_value (10 * acc + 6) r
  | Decimal.D7 r => uint_value (10 * acc + 7) r
  | Decimal.D8 r => uint_value (10 * acc + 8) r
  | Decimal.D9 r => uint_value (10 * acc + 9) r
  end.

(** No character of the string is skipped by [strip]. *)
Fixpoint no_space (s : string) : bool :=
  match s with
  | EmptyString => true
  | String c r => (negb (Py.is_space c) && no_space r)%bool
  end.

(** An object [_validate_attr] has no validator for: no coercer is
    registered under it and it has no [__validate__], or its origin is a
    built-in container class. *)
Definition unsupported (t : ty) : bool :=
  match t with
  | Cls (c_builtin _) => false
  | Cls (c_user _ (Some _)) => false
  | Union _ => false
  | _ => true
  end.

(** Every entry of [I] is an entry of [A]. *)
Definition within (I A : sdict value) : Prop :=
  forall k v, Py.get k I = Some v -> Py.get k A = Some v.

(** [l] is [l'] with some elements left out. *)
Inductive subsequence {A : Type} : list A -> list A -> Prop :=
| subsequence_nil : subsequence [] []
| subsequence_skip x l l' : subsequence l l' -> subsequence l (x :: l')
| subsequence_take x l l' : subsequence l l' -> subsequence (x :: l) (x :: l').

(** The wildcard chain of a registry. *)
Definition all_gobbler (d : validator_registry) : list (value -> string -> res value) :=
  match Py.get None d with Some l => l | None => [] end.

(** The keys [add_validator] registers a handler under. *)
Definition registered_keys (key_name : key_names) : list (option string) :=
  match key_name with
  | all_keys => [None]
  | one_key k => [Some k]
  | many_keys ks => map Some ks
  end.

Section Vocabulary.
Variable rt : runtime.

(** A type that accepts, unchanged, every value it returned. *)
Definition stable (t : ty) : Prop :=
  forall key x y,
    _validate_attr rt t x key = Ok y -> _validate_attr rt t y key = Ok y.

(** What a run of the loop of [validate] over the schema did for a key
    [k] when it returned the mapping [m] and left the Item Store [I'],
    having started from the mapping [A]: either the value of [k] was
    validated and stored, or [k] had neither value nor default, its
    type is optional, and it got [None] in the mapping only.  (A key
    that takes its default does not get this far: the default is passed
    as the type.) *)
Definition validated_as (t : ty) (k : string) (A : sdict value) (self : instance)
    (m I' : sdict value) : Prop :=
  exists v v',
    Py.get k A = Some v
    /\ _validate_attr rt t v k = Ok v'
    /\ Py.get k m = Some v' /\ Py.get k I' = Some v'.

Definition left_null (t : ty) (k : string) (A : sdict value) (self : instance)
    (m I' : sdict value) : Prop :=
  Py.get k A = None /\ Py.get k (_defaults self) = None
  /\ Model.is_optional t = true
  /\ Py.get k m = Some VNone /\ Py.get k I' = Py.get k (_items self).
End Vocabulary.

(** ** Classes and instances used as concrete inputs *)

Module Samples.

Definition int_ : ty := Cls (c_builtin t_int).
Definition str_ : ty := Cls (c_builtin t_str).

(** A class with a hook that raises [ValueError] on what it refuses:
    [def __validate__(value): ... raise ValueError(...)]. *)
Definition Port : ty :=
  Cls (c_user "Port"
         (Some (Hook1 (fun v =>
            match v with
            | VInt n => if ((0 <=? n) && (n <? 65536))%bool then Ok v else Raise ValueError
            | _ => Raise ValueError
            end)))).

(** [nick: typing.Optional[str]] with
    [@validates("nick") def fill(self, value):
       return "anonymous" if value is None else value]. *)
Definition NickModel : model_class :=
  {| __annotations__ := Some [("nick", Optional str_)];
     class_attrs := [];
     decorated :=
       [(one_key "nick",
         Handler1 (fun v => match v with VNone => Ok (VStr "anonymous") | _ => Ok v end))] |}.

(** [name: str] with
    [@validates("name") def tag(self, value): return value + "-field"]. *)
Definition Tagged : model_class :=
  {| __annotations__ := Some [("name", str_)];
     class_attrs := [];
     decorated :=
       [(one_key "name",
         Handler1 (fun v => match v with
                            | VStr s => Ok (VStr (s ++ "-field"))
                            | _ => Raise TypeError
                            end))] |}.

(** [name: str] with [@validates() def audit(self, value, key): return value]. *)
Definition Audited : model_class :=
  {| __annotations__ := Some [("name", str_)];
     class_attrs := [];
     decorated := [(all_keys, Handler2 (fun v _ => Ok v))] |}.

(** [a: int = 5]. *)
Definition WithDefault : model_class :=
  {| __annotations__ := Some [("a", int_)];
     class_attrs := [("a", {| attr_value := VInt 5; _rainbows_default := None |})];
     decorated := [] |}.

(** [WithDefault()]. *)
Definition with_default_new : instance :=
  mk_instance [] [] [] [("a", int_)] None None.

(** A subclass that declares nothing. *)
Definition Plain : model_class :=
  {| __annotations__ := None; class_attrs := []; decorated := [] |}.

(** [Plain(table_name="foo")]. *)
Definition plain_foo : instance :=
  mk_instance [] [] [("table_name", VStr "foo")] [] None None.

(** [table_name: str]. *)
Definition Tabled : model_class :=
  {| __annotations__ := Some [("table_name", str_)];
     class_attrs := []; decorated := [] |}.

(** [age: int] and [nick: typing.Optional[str]], no validators. *)
Definition Person : model_class :=
  {| __annotations__ := Some [("age", int_); ("nick", Optional str_)];
     class_attrs := [];
     decorated := [] |}.

(** [Person(age="42")]. *)
Definition person_42 : instance :=
  mk_instance [] [] [("age", VStr "42")]
    [("age", int_); ("nick", Optional str_)] None None.

(** [Audited(name="x")]. *)
Definition audited_x : instance :=
  mk_instance [] [] [("name", VStr "x")] [("name", str_)]
    (Some [(None, [fun v (_ : string) => Ok v])]) None.

(** [tags: typing.List[str]] with [tags=["a"]]. *)
Definition tagged_list : instance :=
  mk_instance [] [] [("tags", VOther "list")] [("tags", Alias c_list [str_])]
    None None.

(** [age: int] with [age=1, colour="red"]. *)
Definition stray_colour : instance :=
  mk_instance [] [] [("age", VInt 1); ("colour", VStr "red")] [("age", int_)]
    None None.

(** [age: int] with no value. *)
Definition no_age : instance :=
  mk_instance [] [] [] [("age", int_)] None None.

(** [def h(value): return value + suffix]. *)
Definition append_suffix (suffix : string) : value -> string -> res value :=
  fun v _ =>
    match v with
    | VStr s => Ok (VStr (s ++ suffix))
    | _ => Raise TypeError
    end.

(** [name: str] with a wildcard validator appending ["-global"], a
    validator for [name] appending ["-field"], and [name="x"]. *)
Definition global_field : instance :=
  mk_instance [] [] [("name", VStr "x")] [("name", str_)]
    (Some [(None, [append_suffix "-global"]);
           (Some "name", [append_suffix "-field"])]) None.

(** [def fill(value): return "w" if value is None else value]. *)
Definition null_to_w : value -> string -> res value :=
  fun v _ => match v with VNone => Ok (VStr "w") | _ => Ok v end.

(** [nick: typing.Optional[str]] without a value, with [fill] as a
    wildcard validator and a validator for [nick] appending ["-field"]. *)
Definition wild_nick : instance :=
  mk_instance [] [] [] [("nick", Optional str_)]
    (Some [(None, [null_to_w]); (Some "nick", [append_suffix "-field"])]) None.

End Samples.

(** * Properties *)

(** ** Dictionaries *)

Module DictFacts.
Import Py.

#[export] Instance KeyOk_string : KeyOk string := String.eqb_eq.

#[export] Instance KeyOk_option : KeyOk (option string).
Proof.
  intros [x|] [y|]; unfold keqb, Key_option;
    try rewrite String.eqb_eq; split; intros E; congruence.
Qed.

Section Facts.
Context {K V : Type} {KE : Key K} {KO : KeyOk K}.
Implicit Types (k : K) (v : V) (d : dict K V).

Lemma keqb_refl k : keqb k k = true.
Proof. now apply keqb_eq. Qed.

Lemma keqb_neq k k' : k <> k' -> keqb k k' = false.
Proof.
  intros N. destruct (keqb k k') eqn:E; [|reflexivity].
  apply keqb_eq in E. contradiction.
Qed.

Lemma keqb_dec k k' : {k = k'} + {k <> k'}.
Proof.
  destruct (keqb k k') eqn:E.
  - left. now apply keqb_eq.
  - right. intros ->. rewrite keqb_refl in E. discriminate.
Qed.

Lemma get_set_same k v d : get k (set k v d) = Some v.
Proof.
  induction d as [|[k' v'] r IH]; simpl.
  - now rewrite keqb_refl.
  - destruct (keqb k k') eqn:E; simpl; rewrite E; auto.
Qed.

Lemma get_set_other k k' v d : k <> k' -> get k' (set k v d) = get k' d.
Proof.
  intros N. induction d as [|[k0 v0] r IH]; simpl.
  - rewrite keqb_neq; auto.
  - destruct (keqb k k0) eqn:E; simpl.
    + apply keqb_eq in E. subst k0. rewrite keqb_neq; auto.
    + destruct (keqb k' k0); auto.
Qed.

Lemma set_get_id k v d : get k d = Some v -> set k v d = d.
Proof.
  induction d as [|[k0 v0] r IH]; simpl; [discriminate|].
  destruct (keqb k k0) eqn:E; intros G.
  - congruence.
  - now rewrite IH.
Qed.

Lemma get_None_keys k d : get k d = None <-> ~ In k (keys d).
Proof.
  induction d as [|[k0 v0] r IH]; simpl; [tauto|].
  destruct (keqb k k0) eqn:E.
  - apply keqb_eq in E. subst. split; [discriminate | intros N; exfalso; auto].
  - rewrite IH. split; intros N; [intros [->|I]; auto|auto].
    rewrite keqb_refl in E. discriminate.
Qed.

Lemma mem_keys k d : mem k d = true <-> In k (keys d).
Proof.
  unfold mem. destruct (get k d) eqn:G.
  - split; [intros _|reflexivity].
    destruct (in_dec keqb_dec k (keys d)) as [I|N]; [assumption|].
    apply get_None_keys in N. congruence.
  - split; [discriminate|]. intros I. apply get_None_keys in G. contradiction.
Qed.

Lemma unique_keys_NoDup d : unique_keys d = true -> NoDup (keys d).
Proof.
  induction d as [|[k0 v0] r IH]; simpl; [constructor|].
  intros U. apply andb_prop in U as [U1 U2]. constructor; auto.
  intros I. apply mem_keys in I. rewrite I in U1. discriminate.
Qed.

Lemma get_In k v d : NoDup (keys d) -> In (k, v) d -> get k d = Some v.
Proof.
  induction d as [|[k0 v0] r IH]; simpl; [tauto|].
  intros N [E|I]; apply NoDup_cons_iff in N as [N1 N2].
  - inversion E; subst. now rewrite keqb_refl.
  - rewrite keqb_neq; auto.
    intros ->. apply N1. change k0 with (fst (k0, v)). now apply in_map.
Qed.

Lemma In_get k v d : get k d = Some v -> In (k, v) d.
Proof.
  induction d as [|[k0 v0] r IH]; simpl; [discriminate|].
  destruct (keqb k k0) eqn:E.
  - apply keqb_eq in E. intros [= ->]. subst. now left.
  - auto.
Qed.

Lemma del_length k d : In k (keys d) -> S (List.length (del k d)) = List.length d.
Proof.
  induction d as [|[k0 v0] r IH]; simpl; [tauto|].
  destruct (keqb k k0) eqn:E; [reflexivity|].
  intros [->|I]; [rewrite keqb_refl in E; discriminate|].
  simpl. now rewrite IH.
Qed.

Lemma get_del_unique k d : NoDup (keys d) -> get k (del k d) = None.
Proof.
  induction d as [|[k0 v0] r IH]; simpl; [reflexivity|].
  intros N. inversion N; subst.
  destruct (keqb k k0) eqn:E.
  - apply keqb_eq in E. subst. now apply get_None_keys.
  - simpl. rewrite E. auto.
Qed.
End Facts.
End DictFacts.
Import DictFacts.

(** ** The coercers and [_validate_attr] *)

Section AttrFacts.
Variable rt : runtime.

(** A coercer returns an instance of its class... *)
Lemma coercer_returns_instance t key x y :
  BUILT_IN_VALIDATORS rt t key x = Ok y -> isinstance y t = true.
Proof.
  destruct t; simpl.
  - unfold _validate_bool. destruct x; simpl; try discriminate.
    + now intros [= <-].
    + repeat match goal with |- context [if ?c then _ else _] => destruct c end;
        intros [= <-] || discriminate; reflexivity.
  - destruct x; simpl; try destruct (Py.str_int n);
      intros [= <-] || discriminate; reflexivity.
  - unfold _validate_int. destruct x; simpl; try discriminate;
      try (intros [= <-]; reflexivity).
    destruct (Py.int_of_str s); intros [= <-] || discriminate; reflexivity.
  - unfold _validate_float. destruct x; simpl; try discriminate;
      try (intros [= <-]; reflexivity).
    destruct (float_of_str rt s); intros [= <-] || discriminate; reflexivity.
  - unfold _validate_datetime. destruct x; simpl; try discriminate;
      try (intros [= <-]; reflexivity);
      try (destruct (fromtimestamp rt _); intros [= <-] || discriminate; reflexivity).
    destruct (Py.int_of_str s) as [n|].
    + destruct (fromtimestamp rt (NInt n)) as [d|[]];
        try (intros [= <-]; reflexivity); try discriminate.
      destruct (fromisoformat rt s); intros [= <-] || discriminate; reflexivity.
    + destruct (fromisoformat rt s); intros [= <-] || discriminate; reflexivity.
Qed.

(** ... and returns an instance of its class as it is. *)
Lemma coercer_keeps_instance t key y :
  isinstance y t = true -> BUILT_IN_VALIDATORS rt t key y = Ok y.
Proof. destruct t, y; simpl; try discriminate; reflexivity. Qed.

Lemma coercer_rejects_None t key :
  BUILT_IN_VALIDATORS rt t key VNone = Raise (ValidationError key).
Proof. destruct t; reflexivity. Qed.

(** Every failure of a coercer is a [ValidationError] for the key, but
    for two: the datetime coercer on a string, and the str coercer on an
    integer that [str] refuses. *)
Lemma coercer_failure t key x e :
  BUILT_IN_VALIDATORS rt t key x = Raise e ->
  e = ValidationError key
  \/ (t = t_datetime /\ exists s, x = VStr s)
  \/ (t = t_str /\ e = ValueError /\ exists n, x = VInt n /\ Py.str_int n = None).
Proof.
  destruct t; simpl; intros R.
  - left. unfold _validate_bool in R. destruct x; simpl in R; try congruence.
    repeat match type of R with context [if ?c then _ else _] => destruct c end;
      congruence.
  - destruct x; simpl in R; try (left; congruence).
    destruct (Py.str_int n) eqn:E; [discriminate|].
    right. right. injection R as <-. eauto.
  - left. unfold _validate_int in R. destruct x; simpl in R; try congruence.
    destruct (Py.int_of_str s); congruence.
  - left. unfold _validate_float in R. destruct x; simpl in R; try congruence.
    destruct (float_of_str rt s); congruence.
  - unfold _validate_datetime in R.
    destruct x; simpl in R; try (left; congruence);
      try (left; destruct (fromtimestamp rt _); congruence).
    right. left. eauto.
Qed.

(** The union branch, read with [union_loop]. *)
Lemma _validate_attr_Union types item key :
  _validate_attr rt (Union types) item key =
  if (match item with VNone => true | _ => false end && existsb is_None types)%bool
  then Ok VNone
  else union_loop (fun t => _validate_attr rt t item key) types None.
Proof.
  simpl. destruct (_ && _)%bool; [reflexivity|].
  generalize (@None exc). induction types as [|t r IH]; intros last; [reflexivity|].
  simpl. destruct (is_None t); simpl; [apply IH|].
  destruct (_validate_attr rt t item key) as [v|e]; [reflexivity|].
  destruct (caught_by_union e); [apply IH|reflexivity].
Qed.

(** [_validate_attr] follows [typing.get_origin]: no origin, the scalar
    branch; [Union], the union branch. *)
Lemma _validate_attr_origin type_ item key :
  _validate_attr rt type_ item key =
  match get_origin type_ with
  | None => validate_scalar rt type_ item key
  | Some origin_Union =>
      let types := get_args type_ in
      if (match item with VNone => true | _ => false end && existsb is_None types)%bool
      then Ok VNone
      else union_loop (fun t => _validate_attr rt t item key) types None
  | Some (origin_class _) => Raise TypeError
  end.
Proof.
  destruct type_; reflexivity.
Qed.

(** An object of [value] used as a type is refused. *)
Lemma _validate_attr_Obj v item key :
  _validate_attr rt (Obj v) item key = Raise TypeError.
Proof. reflexivity. Qed.

Section Loop.
Variable rec : ty -> res value.

Lemma union_loop_app pre rest last :
  Forall (passed_over rec) pre ->
  exists last', union_loop rec (pre ++ rest) last = union_loop rec rest last'.
Proof.
  intros F. revert last. induction F as [|u pre P F IH]; intros last; simpl.
  - now exists last.
  - destruct P as [N|(e & R & C)].
    + rewrite N. simpl. apply IH.
    + destruct (is_None u); simpl; [apply IH|]. rewrite R, C. apply IH.
Qed.

Lemma union_loop_first_ok pre t post last v :
  Forall (passed_over rec) pre -> is_None t = false -> rec t = Ok v ->
  union_loop rec (pre ++ t :: post) last = Ok v.
Proof.
  intros F N R. destruct (union_loop_app (t :: post) last F) as [l' ->].
  simpl. now rewrite N, R.
Qed.

Lemma union_loop_abort pre t post last e :
  Forall (passed_over rec) pre -> is_None t = false ->
  rec t = Raise e -> caught_by_union e = false ->
  union_loop rec (pre ++ t :: post) last = Raise e.
Proof.
  intros F N R C. destruct (union_loop_app (t :: post) last F) as [l' ->].
  simpl. now rewrite N, R, C.
Qed.
End Loop.

(** Each class that has a coercer accepts what it returned. *)
Lemma builtin_stable t key x y :
  _validate_attr rt (Cls (c_builtin t)) x key = Ok y ->
  _validate_attr rt (Cls (c_builtin t)) y key = Ok y.
Proof.
  simpl. intros R. apply coercer_keeps_instance.
  now apply coercer_returns_instance in R.
Qed.

(** So does [Optional] of such a class: only its first branch returns. *)
Lemma optional_builtin_stable t key x y :
  _validate_attr rt (Optional (Cls (c_builtin t))) x key = Ok y ->
  _validate_attr rt (Optional (Cls (c_builtin t))) y key = Ok y.
Proof.
  unfold Optional. rewrite !_validate_attr_Union. simpl.
  rewrite !andb_false_r.
  destruct (BUILT_IN_VALIDATORS rt t key x) as [v|e] eqn:R.
  - intros [= <-]. apply coercer_returns_instance in R.
    now rewrite (coercer_keeps_instance t key v R).
  - destruct (caught_by_union e); discriminate.
Qed.

End AttrFacts.

(** ** The helpers on examples *)

Example lower_Yes : Py.lower "Yes" = "yes".
Proof. reflexivity. Qed.

Example int_7 : Py.int_of_str "7" = Some 7.
Proof. reflexivity. Qed.

Example int_spaced : Py.int_of_str " -1_000 " = Some (-1000).
Proof. reflexivity. Qed.

Example int_bad : Py.int_of_str "1__0" = None /\ Py.int_of_str "hello" = None.
Proof. split; reflexivity. Qed.

Example str_of_minus_12 : Py.str_of_int (-12) = "-12" /\ Py.str_of_int 0 = "0".
Proof. split; reflexivity. Qed.

Example count_digits_sample :
  Py.count_digits "-1_000" = 4%nat /\ Py.count_digits "007" = 3%nat.
Proof. split; reflexivity. Qed.

(** The sample runtime on the edges of its fragment: the floats 0.0,
    -0.0, 42.0, -42.0 and the infinity, and two strings that are no ISO
    date. *)
Example sample_str_of_float :
  SampleRuntime.str_of_float 0 = "0.0"
  /\ SampleRuntime.str_of_float (2 ^ 63) = "-0.0"
  /\ SampleRuntime.str_of_float (SampleRuntime.bits_of_pos 42) = "42.0"
  /\ SampleRuntime.str_of_float (2 ^ 63 + SampleRuntime.bits_of_pos 42) = "-42.0"
  /\ SampleRuntime.str_of_float (2047 * 2 ^ 52) = "inf".
Proof. repeat split; vm_compute; reflexivity. Qed.

Example sample_fromisoformat :
  SampleRuntime.fromisoformat "2_20-01-01" = None
  /\ SampleRuntime.fromisoformat "2020-02-30" = None
  /\ SampleRuntime.fromisoformat "2020-02-29"
     = Some (mk_datetime 2020 2 29 0 0 0 0 None).
Proof. repeat split. Qed.

(** ** Claims about the coercers and the type expression validator *)

(** C1.  The claim: the boolean coercer compares the input value,
    lower-cased, with the vocabulary, so ["Yes"] gives true under any key
    and ["maybe"] raises.  The code lower-cases the key instead: the
    outcome for a string never depends on the string, ["Yes"] under the
    key ["active"] raises, and ["maybe"] under the key ["yes"] gives
    true. *)
Theorem C1_bool_coercer_reads_the_key :
  (forall key s s', _validate_bool key (VStr s) = _validate_bool key (VStr s'))
  /\ _validate_bool "active" (VStr "Yes") = Raise (ValidationError "active")
  /\ _validate_bool "yes" (VStr "maybe") = Ok (VBool true).
Proof. repeat split. Qed.

(** C4.  The claim: a null value validated against [Optional(T)] returns
    null at once.  In the code the fast path looks for the object [None]
    among the arguments of the union, where [typing] keeps [type(None)]:
    the branches are tried, and for every class [T] that has a coercer the
    call raises [TypeError].  In general, unless [T] is the object [None]
    itself, the outcome is that of the branch [T], with a failure the
    union catches replaced by the [TypeError] of the branch [NoneType]. *)
Theorem C4_optional_None_tries_the_branches :
  forall rt key,
    (forall t, _validate_attr rt (Optional (Cls (c_builtin t))) VNone key = Raise TypeError)
    /\ (forall T,
          _validate_attr rt (Optional T) VNone key =
          if is_None T then Ok VNone
          else
            match _validate_attr rt T VNone key with
            | Ok v => Ok v
            | Raise e => if caught_by_union e then Raise TypeError else Raise e
            end).
Proof.
  intros rt key. split.
  - intros t. unfold Optional. rewrite _validate_attr_Union. simpl.
    now rewrite coercer_rejects_None.
  - intros T. unfold Optional. rewrite _validate_attr_Union. simpl.
    destruct (is_None T); simpl; [reflexivity|].
    destruct (_validate_attr rt T VNone key) as [v|e]; [reflexivity|].
    destruct (caught_by_union e); reflexivity.
Qed.

(** C5, as stated, fails: in [Union[Port, str]] the branch [Port] raises
    [ValueError] on ["http"], the branch [str] is the first that validates
    it, and the union raises the [ValueError] instead of returning
    ["http"]. *)
Lemma C5_counterexample :
  VStr "http" <> VNone
  /\ _validate_attr SampleRuntime.rt Samples.Port (VStr "http") "endpoint"
     = Raise ValueError
  /\ _validate_attr SampleRuntime.rt Samples.str_ (VStr "http") "endpoint"
     = Ok (VStr "http")
  /\ _validate_attr SampleRuntime.rt (Union [Samples.Port; Samples.str_])
       (VStr "http") "endpoint"
     = Raise ValueError.
Proof. repeat split. discriminate. Qed.

(** C5, amended.  For a non-null value the branches of a union are tried
    in declared order.  When every branch before [t] is passed over (it
    raised [TypeError] or [ValidationError]), the union returns what [t]
    returns, and raises what [t] raises if that is neither of the two;
    in particular [Union[int, str]] on ["7"] gives the integer 7. *)
Theorem C5_first_returning_branch_wins :
  forall rt pre t post item key,
    item <> VNone ->
    Forall (passed_over (fun u => _validate_attr rt u item key)) pre ->
    is_None t = false ->
    match _validate_attr rt t item key with
    | Ok v => _validate_attr rt (Union (pre ++ t :: post)) item key = Ok v
    | Raise e =>
        caught_by_union e = false ->
        _validate_attr rt (Union (pre ++ t :: post)) item key = Raise e
    end.
Proof.
  intros rt pre t post item key NN F N.
  rewrite _validate_attr_Union.
  assert (Fast : (match item with VNone => true | _ => false end
                  && existsb is_None (pre ++ t :: post))%bool = false)
    by (destruct item; try reflexivity; contradiction).
  rewrite Fast.
  destruct (_validate_attr rt t item key) as [v|e] eqn:R.
  - now apply union_loop_first_ok.
  - intros C. now apply union_loop_abort.
Qed.

Lemma C5_witness :
  VStr "7" <> VNone
  /\ _validate_attr SampleRuntime.rt (Union [Samples.int_; Samples.str_]) (VStr "7") "n"
     = Ok (VInt 7).
Proof.
  split; [discriminate|].
  exact (@C5_first_returning_branch_wins SampleRuntime.rt
           [] Samples.int_ [Samples.str_] (VStr "7") "n"
           (fun E : VStr "7" = VNone =>
              eq_ind (VStr "7")
                (fun v => match v with VStr _ => True | _ => False end) I VNone E)
           (Forall_nil _) eq_refl).
Defined.

(** C7.  The claim: a coercer that rejects its input raises a
    [ValidationError] for the key, the datetime coercer on every
    unparseable string included.  In the code a string that is neither an
    integer nor an ISO date leaves the datetime coercer with the
    [ValueError] of [fromisoformat]. *)
Theorem C7_datetime_coercer_leaks_ValueError :
  forall rt key s,
    Py.int_of_str s = None ->
    fromisoformat rt s = None ->
    _validate_datetime rt key (VStr s) = Raise ValueError.
Proof.
  intros rt key s I F. unfold _validate_datetime. simpl. now rewrite I, F.
Qed.

Lemma C7_witness :
  Py.int_of_str "hello" = None
  /\ fromisoformat SampleRuntime.rt "hello" = None
  /\ _validate_datetime SampleRuntime.rt "created" (VStr "hello") = Raise ValueError.
Proof.
  split; [reflexivity|]. split; [reflexivity|].
  exact (@C7_datetime_coercer_leaks_ValueError SampleRuntime.rt "created" "hello"
           eq_refl eq_refl).
Defined.

(** ** [validate]: the loop over the schema *)

Section ReconcileFacts.
Variable rt : runtime.
Import Py.

Lemma reconcile_cons key t rest A self calls :
  Model.reconcile rt ((key, t) :: rest) A self calls =
  match get key A with
  | Some item =>
      match _validate_attr rt t item key with
      | Raise e => {| returned := Raise e; self_after := self;
                      attr_calls := (calls ++ [key])%list |}
      | Ok iv =>
          Model.reconcile rt rest (set key iv A)
            (with_items (set key iv (_items self)) self) (calls ++ [key])%list
      end
  | None =>
      match get key (_defaults self) with
      | Some d =>
          match _validate_attr rt (Obj d) d key with
          | Raise e => {| returned := Raise e; self_after := self;
                          attr_calls := (calls ++ [key])%list |}
          | Ok iv =>
              Model.reconcile rt rest (set key iv (set key d A))
                (with_items (set key iv (_items self)) self) (calls ++ [key])%list
          end
      | None =>
          if Model.is_optional t
          then Model.reconcile rt rest (set key VNone A) self calls
          else {| returned := Raise (ValidationError key); self_after := self;
                  attr_calls := calls |}
      end
  end.
Proof. reflexivity. Qed.

(** The loop writes to the Item Store only. *)
Lemma reconcile_keeps sch : forall A self calls,
  let self' := self_after (Model.reconcile rt sch A self calls) in
  _defaults self' = _defaults self
  /\ _attributes self' = _attributes self
  /\ _validators self' = _validators self
  /\ __dict__ self' = __dict__ self
  /\ _ignored_attrs self' = _ignored_attrs self.
Proof.
  induction sch as [|[key t] rest IH]; intros A self calls; [simpl; tauto|].
  rewrite reconcile_cons.
  destruct (get key A) as [item|].
  - destruct (_validate_attr rt t item key); [|simpl; tauto].
    apply (IH (set key a A) (with_items (set key a (_items self)) self)).
  - destruct (get key (_defaults self)) as [d|].
    + destruct (_validate_attr rt (Obj d) d key); [|simpl; tauto].
      apply (IH (set key a (set key d A)) (with_items (set key a (_items self)) self)).
    + destruct (Model.is_optional t); [apply IH|simpl; tauto].
Qed.

Lemma keys_set (V : Type) (k k' : string) (v : V) (d : sdict V) :
  In k (keys (set k' v d)) <-> k = k' \/ In k (keys d).
Proof.
  induction d as [|[k0 v0] r IH]; simpl.
  - intuition.
  - destruct (keqb k' k0) eqn:E; simpl.
    + apply keqb_eq in E. subst. intuition.
    + rewrite IH. intuition.
Qed.

(** A mapping the loop returns has every key of the schema. *)
Lemma reconcile_has_keys sch : forall A self calls m,
  returned (Model.reconcile rt sch A self calls) = Ok m ->
  forall k, In k (keys sch) \/ In k (keys A) -> In k (keys m).
Proof.
  induction sch as [|[key t] rest IH]; intros A self calls m R k I.
  - simpl in R. injection R as <-. simpl in I. tauto.
  - rewrite reconcile_cons in R.
    assert (Step : forall A' : sdict value, In key (keys A') ->
              (forall x, In x (keys A) -> In x (keys A')) ->
              In k (keys (V:=ty) rest) \/ In k (keys A')).
    { intros A' HK HA. simpl in I. destruct I as [[<-|I]|I]; auto. }
    destruct (get key A) as [item|].
    + destruct (_validate_attr rt t item key); [|discriminate].
      eapply IH; [exact R|]. apply Step.
      * apply keys_set; auto.
      * intros x Hx. apply keys_set; auto.
    + destruct (get key (_defaults self)) as [d|].
      * destruct (_validate_attr rt (Obj d) d key); [|discriminate].
        eapply IH; [exact R|]. apply Step.
        -- apply keys_set; auto.
        -- intros x Hx. apply keys_set. right. apply keys_set; auto.
      * destruct (Model.is_optional t); [|discriminate].
        eapply IH; [exact R|]. apply Step.
        -- apply keys_set; auto.
        -- intros x Hx. apply keys_set; auto.
Qed.

(** [_validate_attr] is called for keys of the schema only... *)
Lemma reconcile_calls_in sch : forall A self calls k,
  In k (attr_calls (Model.reconcile rt sch A self calls)) ->
  In k calls \/ In k (keys sch).
Proof.
  induction sch as [|[key t] rest IH]; intros A self calls k I.
  - simpl in I. auto.
  - rewrite reconcile_cons in I.
    assert (Snoc : In k (calls ++ [key])%list -> In k calls \/ In k (keys (V:=ty) ((key, t) :: rest))).
    { intros J. apply in_app_or in J as [J|[<-|[]]]; simpl; auto. }
    assert (Rec : forall A' self' calls',
               In k (attr_calls (Model.reconcile rt rest A' self' calls')) ->
               (In k calls' -> In k calls \/ In k (keys (V:=ty) ((key, t) :: rest))) ->
               In k calls \/ In k (keys (V:=ty) ((key, t) :: rest))).
    { intros A' self' calls' J Hc. apply IH in J as [J|J]; simpl; auto. }
    destruct (get key A) as [item|].
    + destruct (_validate_attr rt t item key); simpl in I; eauto.
    + destruct (get key (_defaults self)) as [d|].
      * destruct (_validate_attr rt (Obj d) d key); simpl in I; eauto.
      * destruct (Model.is_optional t); simpl in I; eauto.
Qed.

(** ... and never for a key that has neither a value nor a default. *)
Lemma reconcile_not_called sch : forall A self calls k,
  NoDup (keys sch) ->
  get k A = None -> get k (_defaults self) = None -> ~ In k calls ->
  ~ In k (attr_calls (Model.reconcile rt sch A self calls)).
Proof.
  induction sch as [|[key t] rest IH]; intros A self calls k N GA GD NC.
  - simpl. exact NC.
  - simpl in N. apply NoDup_cons_iff in N as [N1 N2].
    rewrite reconcile_cons.
    destruct (string_dec key k) as [->|D].
    + rewrite GA, GD. destruct (Model.is_optional t); [|exact NC].
      intros J. apply reconcile_calls_in in J as [J|J]; auto.
    + assert (NC' : ~ In k (calls ++ [key])%list).
      { intros J. apply in_app_or in J as [J|[J|[]]]; auto. }
      assert (GS : forall v (A' : sdict value), get k A' = None -> get k (set key v A') = None).
      { intros v A' G. rewrite get_set_other; auto. }
      destruct (get key A) as [item|].
      * destruct (_validate_attr rt t item key); [|exact NC'].
        apply IH; auto.
      * destruct (get key (_defaults self)) as [d|].
        -- destruct (_validate_attr rt (Obj d) d key); [|exact NC'].
           apply IH; auto.
        -- destruct (Model.is_optional t); [|exact NC].
           apply IH; auto.
Qed.

Lemma reconcile_spec sch : forall A self calls m,
  NoDup (keys sch) ->
  returned (Model.reconcile rt sch A self calls) = Ok m ->
  forall k,
    let I' := _items (self_after (Model.reconcile rt sch A self calls)) in
    (~ In k (keys sch) -> get k m = get k A /\ get k I' = get k (_items self))
    /\ (forall t, In (k, t) sch ->
          validated_as rt t k A self m I' \/ left_null t k A self m I').
Proof.
  induction sch as [|[key t] rest IH]; intros A self calls m N R k.
  - simpl in *. injection R as <-. split; [auto|tauto].
  - simpl in N. apply NoDup_cons_iff in N as [N1 N2].
    rewrite reconcile_cons in R |- *.
    (* one step to the state [A1], [s1], then the rest of the schema *)
    assert (Rest : forall A1 s1 c1,
      returned (Model.reconcile rt rest A1 s1 c1) = Ok m ->
      _defaults s1 = _defaults self ->
      (forall x, x <> key -> get x A1 = get x A) ->
      (forall x, x <> key -> get x (_items s1) = get x (_items self)) ->
      let I' := _items (self_after (Model.reconcile rt rest A1 s1 c1)) in
      (get key m = get key A1 -> get key I' = get key (_items s1) ->
       validated_as rt t key A self m I' \/ left_null t key A self m I') ->
      (~ In k (keys (V:=ty) ((key, t) :: rest)) ->
         get k m = get k A /\ get k I' = get k (_items self))
      /\ (forall t0, In (k, t0) ((key, t) :: rest) ->
            validated_as rt t0 k A self m I' \/ left_null t0 k A self m I')).
    { intros A1 s1 c1 R1 D1 GA GI I' HK.
      pose proof (IH A1 s1 c1 m N2 R1) as S.
      split.
      - intros NI. simpl in NI.
        assert (k <> key) by (intros ->; auto).
        destruct (S k) as [[E1 E2] _]; [tauto|].
        subst I'. rewrite E1, E2, GA, GI; auto.
      - intros t0 [E|I].
        + injection E as <- <-. destruct (S key) as [[E1 E2] _]; auto.
        + assert (D : k <> key).
          { intros ->. apply N1. change key with (fst (key, t0)). now apply in_map. }
          destruct (S k) as [_ S2].
          destruct (S2 t0 I) as [(v & v' & G & V & M & J)|(G1 & G2 & O & M & J)].
          * left. exists v, v'. rewrite GA in G; auto.
          * right. unfold left_null. rewrite GA in G1; auto. rewrite D1 in G2.
            rewrite GI in J; auto. }
    destruct (get key A) as [item|] eqn:GA.
    + destruct (_validate_attr rt t item key) as [iv|] eqn:V; [|discriminate].
      apply (Rest _ _ _ R eq_refl).
      * intros; apply get_set_other; auto.
      * intros; simpl; apply get_set_other; auto.
      * simpl. rewrite !get_set_same. intros E1 E2.
        left. exists item, iv. rewrite GA. auto.
    + destruct (get key (_defaults self)) as [d|] eqn:GD.
      * discriminate.
      * destruct (Model.is_optional t) eqn:O; [|discriminate].
        apply (Rest _ _ _ R eq_refl).
        -- intros; apply get_set_other; auto.
        -- intros; reflexivity.
        -- rewrite get_set_same. intros E1 E2.
           right. unfold left_null. rewrite GA, GD. auto.
Qed.

Lemma primitive_or_optional_stable t :
  primitive_or_optional t = true -> stable rt t.
Proof.
  intros P key x y.
  destruct t as [v|c| |args|c args]; try discriminate.
  - destruct c; try discriminate. apply builtin_stable.
  - destruct args as [|a [|b [|c r]]]; try discriminate.
    all: destruct a as [v|[ta| |]| |l|c' l]; try discriminate.
    all: destruct b as [v|[tb| |]| |l|c' l]; try discriminate.
    apply optional_builtin_stable.
Qed.

(** A run of the loop from a state in which every key of the schema
    either holds a value its type returns unchanged, or has neither value
    nor default and an optional type: the run returns, and the mapping
    is the one it started from plus [None] for the keys of the second
    kind. *)
Lemma reconcile_again sch : forall A self calls,
  NoDup (keys sch) ->
  (forall k t, In (k, t) sch ->
     (exists v, get k A = Some v /\ _validate_attr rt t v k = Ok v)
     \/ (get k A = None /\ get k (_defaults self) = None
         /\ Model.is_optional t = true)) ->
  exists m,
    returned (Model.reconcile rt sch A self calls) = Ok m
    /\ forall k, get k m =
         match get k A with
         | Some v => Some v
         | None => if mem k sch then Some VNone else None
         end.
Proof.
  induction sch as [|[key t] rest IH]; intros A self calls N H.
  - exists A. split; [reflexivity|]. intros k. simpl.
    destruct (get k A); reflexivity.
  - simpl in N. apply NoDup_cons_iff in N as [N1 N2].
    rewrite reconcile_cons.
    assert (Other : forall k t0, In (k, t0) rest -> k <> key).
    { intros k t0 I ->. apply N1. change key with (fst (key, t0)). now apply in_map. }
    assert (Rest : forall A1 s1 c1,
      _defaults s1 = _defaults self ->
      (forall x, x <> key -> get x A1 = get x A) ->
      get key A1 = match get key A with Some v => Some v | None => Some VNone end ->
      exists m,
        returned (Model.reconcile rt rest A1 s1 c1) = Ok m
        /\ forall k, get k m =
             match get k A with
             | Some v => Some v
             | None => if mem k ((key, t) :: rest) then Some VNone else None
             end).
    { intros A1 s1 c1 D1 GA GK.
      destruct (IH A1 s1 c1 N2) as (m & R & M).
      - intros k t0 I. rewrite GA, D1 by eauto. apply H. now right.
      - exists m. split; [exact R|]. intros k. rewrite M.
        destruct (string_dec k key) as [->|D].
        + rewrite GK. unfold mem. simpl. rewrite String.eqb_refl.
          destruct (get key A); reflexivity.
        + rewrite GA by assumption. unfold mem. simpl.
          unfold keqb, Key_string. apply String.eqb_neq in D. rewrite D.
          reflexivity. }
    destruct (H key t (or_introl eq_refl)) as [(v & G & V)|(G & GD & O)].
    + rewrite G, V. apply Rest; [reflexivity| |].
      * intros. apply get_set_other; auto.
      * rewrite get_set_same, G. reflexivity.
    + rewrite G, GD, O. apply Rest; [reflexivity| |].
      * intros. apply get_set_other; auto.
      * rewrite get_set_same, G. reflexivity.
Qed.

(** *** The first loop and the validator chain *)

Lemma first_unknown_None ks (attrs : sdict ty) :
  Model.first_unknown ks attrs = None <-> forall k, In k ks -> mem k attrs = true.
Proof.
  induction ks as [|k0 r IH]; simpl.
  - split; [intros _ k []|reflexivity].
  - destruct (mem k0 attrs) eqn:M; simpl.
    + rewrite IH. split; [intros F k [<-|I]; auto|auto].
    + split; [discriminate|]. intros F. rewrite F in M; auto. discriminate.
Qed.

(** A run of the chain that returns: a key it met and that has no chain
    of its own holds [None], in the mapping and in the Item Store; a key
    it did not meet is as before. *)
Lemma chain_loop_spec d g entries : forall A self m self',
  Model.chain_loop d g entries A self = (Ok m, self') ->
  forall key,
    (In key (keys entries) -> get (Some key) d = None ->
       get key m = Some VNone /\ get key (_items self') = Some VNone)
    /\ (~ In key (keys entries) ->
          get key m = get key A /\ get key (_items self') = get key (_items self)).
Proof.
  induction entries as [|[k0 v0] rest IH]; intros A self m self' R key.
  - simpl in R. injection R as <- <-. split; [intros []|auto].
  - simpl in R.
    destruct (bind (Model.run_handlers g v0 k0)
                (fun v => Model.call_validators d v k0)) as [v1|e] eqn:B;
      [|discriminate].
    pose proof (IH _ _ _ _ R key) as [S1 S2].
    split.
    + intros I G.
      destruct (in_dec string_dec key (keys rest)) as [J|J]; [auto|].
      destruct I as [E|I]; [|contradiction]. simpl in E. subst k0.
      destruct (S2 J) as [E1 E2]. rewrite E1, E2. simpl.
      rewrite !get_set_same.
      unfold bind, Model.call_validators in B. rewrite G in B.
      destruct (Model.run_handlers g v0 key); [|discriminate].
      injection B as <-. auto.
    + intros NI. simpl in NI.
      destruct (S2 (fun J => NI (or_intror J))) as [E1 E2].
      rewrite E1, E2. simpl. rewrite !get_set_other; auto.
Qed.

(** The chain writes to the Item Store only. *)
Lemma chain_loop_keeps d g entries : forall A self,
  _attributes (snd (Model.chain_loop d g entries A self)) = _attributes self
  /\ _defaults (snd (Model.chain_loop d g entries A self)) = _defaults self
  /\ _validators (snd (Model.chain_loop d g entries A self)) = _validators self.
Proof.
  induction entries as [|[k0 v0] rest IH]; intros A self; [simpl; auto|].
  simpl. destruct (bind _ _); [|simpl; auto].
  apply (IH (set k0 a A) (with_items (set k0 a (_items self)) self)).
Qed.

End ReconcileFacts.

(** ** Claims about [validate] *)

Example person_42_constructed :
  Model.__init__ Samples.Person [("age", VStr "42")] = Ok Samples.person_42.
Proof. reflexivity. Qed.

Example audited_x_constructed :
  Model.__init__ Samples.Audited [("name", VStr "x")] = Ok Samples.audited_x.
Proof. reflexivity. Qed.

Example plain_foo_constructed :
  Model.__init__ Samples.Plain [("table_name", VStr "foo")] = Ok Samples.plain_foo.
Proof. reflexivity. Qed.

(** C6, as stated, fails: [nick] is optional, absent and without default,
    and a validator registered for [nick] replaces the [None] it was
    given, so the returned mapping holds ["anonymous"]. *)
Lemma C6_counterexample :
  exists self m,
    Model.__init__ Samples.NickModel [] = Ok self
    /\ Py.get "nick" (_attributes self) = Some (Optional Samples.str_)
    /\ Model.is_optional (Optional Samples.str_) = true
    /\ Py.get "nick" (_items self) = None
    /\ Py.get "nick" (_defaults self) = None
    /\ returned (Model.validate SampleRuntime.rt self) = Ok m
    /\ Py.get "nick" m = Some (VStr "anonymous").
Proof.
  eexists. eexists. split; [reflexivity|].
  repeat (split; [reflexivity|]). reflexivity.
Qed.

Lemma NoDup_keys_set (V : Type) (k : string) (v : V) (d : sdict V) :
  NoDup (Py.keys d) -> NoDup (Py.keys (Py.set k v d)).
Proof.
  induction d as [|[k0 v0] r IH]; simpl; intros N.
  - constructor; [intros []|constructor].
  - apply NoDup_cons_iff in N as [N1 N2].
    destruct (Py.keqb k k0) eqn:E; simpl; constructor; auto.
    intros I. apply keys_set in I as [->|I]; [|contradiction].
    rewrite keqb_refl in E. discriminate.
Qed.

Lemma reconcile_NoDup rt sch : forall A self calls m,
  NoDup (Py.keys A) ->
  returned (Model.reconcile rt sch A self calls) = Ok m ->
  NoDup (Py.keys m).
Proof.
  induction sch as [|[key t] rest IH]; intros A self calls m N R.
  - simpl in R. now injection R as <-.
  - rewrite reconcile_cons in R.
    destruct (Py.get key A) as [item|].
    + destruct (_validate_attr rt t item key); [|discriminate].
      eapply IH; [|exact R]. now apply NoDup_keys_set.
    + destruct (Py.get key (_defaults self)) as [d|]; [discriminate R|].
      destruct (Model.is_optional t); [|discriminate].
      eapply IH; [|exact R]. now apply NoDup_keys_set.
Qed.

Lemma run_handlers_app l1 : forall l2 v key,
  Model.run_handlers (l1 ++ l2) v key
  = bind (Model.run_handlers l1 v key) (fun v' => Model.run_handlers l2 v' key).
Proof.
  induction l1 as [|h r IH]; intros l2 v key; simpl; [reflexivity|].
  destruct (h v key); simpl; [apply IH|reflexivity].
Qed.

(** What the chain did with an entry it met once. *)
Lemma chain_loop_value d g entries : forall A self m self',
  NoDup (Py.keys entries) ->
  Model.chain_loop d g entries A self = (Ok m, self') ->
  forall key v,
    In (key, v) entries ->
    exists v3,
      bind (Model.run_handlers g v key) (fun v2 => Model.call_validators d v2 key)
      = Ok v3
      /\ Py.get key m = Some v3 /\ Py.get key (_items self') = Some v3.
Proof.
  induction entries as [|[k0 v0] rest IH]; intros A self m self' N R key v I;
    [destruct I|].
  simpl in N. apply NoDup_cons_iff in N as [N1 N2].
  simpl in R.
  destruct (bind (Model.run_handlers g v0 k0)
              (fun v2 => Model.call_validators d v2 k0)) as [v1|] eqn:B;
    [|discriminate].
  destruct I as [E|I].
  - injection E as -> ->. exists v1. split; [exact B|].
    destruct (chain_loop_spec _ _ _ _ _ R key) as [_ S].
    destruct (S N1) as [E1 E2]. rewrite E1, E2. simpl.
    now rewrite !get_set_same.
  - eapply IH; eauto.
Qed.

(** C6, amended.  For a declared optional field that is absent from the
    Item Store and has no default, [validate] never calls
    [_validate_attr] for the field.  With no validator registered on the
    instance, the mapping it returns holds [None] for the field.  With a
    validator chain registered for the field's key, [None] is what the
    validators start from: the wildcard handlers run on it in
    registration order, then the key's handlers on their result, and the
    final result is the field's value in the returned mapping. *)
Theorem C6_absent_optional_field :
  forall rt self key t,
    Py.unique_keys (_attributes self) = true ->
    Py.unique_keys (_items self) = true ->
    Py.get key (_attributes self) = Some t ->
    Model.is_optional t = true ->
    Py.get key (_items self) = None ->
    Py.get key (_defaults self) = None ->
    ~ In key (attr_calls (Model.validate rt self))
    /\ (forall m,
          returned (Model.validate rt self) = Ok m ->
          (no_validators self = true -> Py.get key m = Some VNone)
          /\ (forall d hs,
                _validators self = Some d ->
                Py.get (Some key) d = Some hs ->
                exists v,
                  Model.run_handlers (all_gobbler d ++ hs) VNone key = Ok v
                  /\ Py.get key m = Some v)).
Proof.
  intros rt self key t U UI GT O GI GD.
  apply unique_keys_NoDup in U. apply unique_keys_NoDup in UI.
  unfold Model.validate, no_validators.
  destruct (Model.first_unknown _ _); [split; [simpl; tauto|discriminate]|].
  set (typed := Model.reconcile rt (_attributes self) (_items self) self []).
  assert (NC : ~ In key (attr_calls typed))
    by (apply reconcile_not_called; auto).
  assert (TM : forall m1, returned typed = Ok m1 -> Py.get key m1 = Some VNone).
  { intros m1 R. destruct (reconcile_spec rt _ _ _ _ U R key) as [_ S].
    destruct (S t (In_get _ _ GT)) as [(v & v' & G & _)|(_ & _ & _ & M & _)];
      congruence. }
  destruct (returned typed) as [m1|e] eqn:R.
  2:{ split; [exact NC|]. intros m RM. rewrite R in RM. discriminate. }
  pose proof (reconcile_NoDup rt _ _ _ _ UI R) as N1.
  specialize (TM m1 eq_refl).
  pose proof (reconcile_keeps rt (_attributes self) (_items self) self [])
    as (_ & _ & KV & _).
  fold typed in KV. rewrite KV.
  destruct (_validators self) as [[|c d]|].
  - split; [exact NC|]. intros m RM. rewrite R in RM. injection RM as <-.
    split; [intros _; exact TM|]. intros d hs [= <-] G. discriminate G.
  - split; [exact NC|]. cbn [returned]. intros m RM.
    split; [discriminate|]. intros d0 hs [= <-] G.
    destruct (Model.chain_loop (c :: d)
                match Py.get None (c :: d) with Some l => l | None => [] end
                m1 m1 (self_after typed)) as [r s'] eqn:C.
    cbn [fst] in RM. subst r.
    destruct (chain_loop_value _ _ _ _ _ N1 C key VNone (In_get _ _ TM))
      as (v3 & B & Jm & _).
    exists v3. split; [|exact Jm].
    rewrite run_handlers_app. unfold Model.call_validators in B.
    rewrite G in B. exact B.
  - split; [exact NC|]. intros m RM. rewrite R in RM. injection RM as <-.
    split; [intros _; exact TM|]. intros d hs E. discriminate E.
Qed.

Lemma C6_witness :
  ~ In "nick" (attr_calls (Model.validate SampleRuntime.rt Samples.wild_nick))
  /\ returned (Model.validate SampleRuntime.rt Samples.wild_nick)
     = Ok [("nick", VStr "w-field")]
  /\ exists v,
       Model.run_handlers
         (all_gobbler [(None, [Samples.null_to_w]);
                       (Some "nick", [Samples.append_suffix "-field"])]
          ++ [Samples.append_suffix "-field"]) VNone "nick" = Ok v
       /\ Py.get "nick" [("nick", VStr "w-field")] = Some v.
Proof.
  pose proof (@C6_absent_optional_field SampleRuntime.rt Samples.wild_nick
                "nick" (Optional Samples.str_)
                eq_refl eq_refl eq_refl eq_refl eq_refl eq_refl) as [NC M].
  split; [exact NC|]. split; [reflexivity|].
  destruct (M [("nick", VStr "w-field")] eq_refl) as [_ K].
  exact (K _ _ eq_refl eq_refl).
Defined.

(** Without any validator the absent optional field is [None] in the
    returned mapping. *)
Example absent_optional_is_null :
  returned (Model.validate SampleRuntime.rt Samples.person_42)
  = Ok [("age", VInt 42); ("nick", VNone)].
Proof. reflexivity. Qed.

(** Without validators [validate] is its first two loops. *)
Lemma validate_plain rt self :
  no_validators self = true ->
  Model.validate rt self =
  match Model.first_unknown (Py.keys (_items self)) (_attributes self) with
  | Some key => {| returned := Raise (ValidationError key); self_after := self;
                   attr_calls := [] |}
  | None => Model.reconcile rt (_attributes self) (_items self) self []
  end.
Proof.
  intros NV. unfold Model.validate.
  destruct (Model.first_unknown _ _); [reflexivity|].
  destruct (returned _); [|reflexivity].
  pose proof (reconcile_keeps rt (_attributes self) (_items self) self [])
    as (_ & _ & KV & _).
  cbv zeta in KV. rewrite KV. unfold no_validators in NV.
  destruct (_validators self) as [[|c d]|]; try reflexivity. discriminate.
Qed.

(** C9, as stated, fails: [validate] stores what the validator chain
    returned, so the chain of [Tagged] runs again on its own output and
    the second mapping differs from the first. *)
Lemma C9_counterexample :
  exists self m1 m2,
    Model.__init__ Samples.Tagged [("name", VStr "x")] = Ok self
    /\ returned (Model.validate SampleRuntime.rt self) = Ok m1
    /\ returned (Model.validate SampleRuntime.rt
                   (self_after (Model.validate SampleRuntime.rt self))) = Ok m2
    /\ Py.get "name" m1 = Some (VStr "x-field")
    /\ Py.get "name" m2 = Some (VStr "x-field-field").
Proof.
  eexists. eexists. eexists. split; [reflexivity|].
  repeat (split; [reflexivity|]). reflexivity.
Qed.

(** C9, amended.  On an instance without registered validators whose
    fields are typed by classes that have a coercer, or [Optional] of
    one, a [validate] that returns is followed by a [validate] that
    returns an equal mapping. *)
Theorem C9_validate_twice :
  forall rt self m1,
    Py.unique_keys (_attributes self) = true ->
    no_validators self = true ->
    forallb primitive_or_optional (map snd (_attributes self)) = true ->
    returned (Model.validate rt self) = Ok m1 ->
    exists m2,
      returned (Model.validate rt (self_after (Model.validate rt self))) = Ok m2
      /\ forall k, Py.get k m2 = Py.get k m1.
Proof.
  intros rt self m1 U NV P R1.
  apply unique_keys_NoDup in U.
  rewrite (validate_plain rt self NV) in R1 |- *.
  destruct (Model.first_unknown _ _) eqn:FU; [discriminate|].
  pose proof (reconcile_keeps rt (_attributes self) (_items self) self [])
    as (KD & KA & KV & _).
  pose proof (reconcile_spec rt (_attributes self) (_items self) self [] U R1)
    as Spec.
  cbv zeta in KD, KA, KV, Spec.
  remember (self_after
              (Model.reconcile rt (_attributes self) (_items self) self []))
    as self1 eqn:E1 in *.
  rewrite first_unknown_None in FU.
  assert (NV1 : no_validators self1 = true)
    by (unfold no_validators; rewrite KV; exact NV).
  rewrite (validate_plain rt self1 NV1), KA.
  (* the first loop finds no unknown key *)
  assert (FU1 : Model.first_unknown (Py.keys (_items self1)) (_attributes self)
                = None).
  { apply first_unknown_None. intros k Ik.
    destruct (Py.mem k (_attributes self)) eqn:M; [reflexivity|exfalso].
    assert (NI : ~ In k (Py.keys (_attributes self)))
      by (intros J; apply mem_keys in J; congruence).
    destruct (Spec k) as [[_ E] _]; [exact NI|].
    apply mem_keys in Ik. unfold Py.mem in Ik. rewrite E in Ik.
    destruct (Py.get k (_items self)) eqn:G; [|discriminate].
    apply In_get in G. apply (in_map fst) in G. apply FU in G. simpl in G.
    congruence. }
  rewrite FU1.
  (* the second loop meets fixed points and still-absent optional keys *)
  destruct (reconcile_again rt (_attributes self) (_items self1) self1 [] U)
    as (m2 & R2 & M2).
  { intros k t I. destruct (Spec k) as [_ Sk].
    destruct (Sk t I) as [(v & v' & _ & V & _ & J)|(G & GD & O & _ & J)].
    - left. exists v'. split; [exact J|].
      apply (@primitive_or_optional_stable rt t) in V; [exact V|].
      rewrite forallb_forall in P. apply P. change t with (snd (k, t)).
      now apply in_map.
    - right. rewrite J, KD. auto. }
  exists m2. split; [exact R2|]. intros k. rewrite M2.
  destruct (Py.mem k (_attributes self)) eqn:M.
  - unfold Py.mem in M.
    destruct (Py.get k (_attributes self)) as [t|] eqn:G; [|discriminate].
    apply In_get in G. destruct (Spec k) as [_ Sk].
    destruct (Sk t G) as [(v & v' & _ & _ & Jm & J)|(GA & _ & _ & Jm & J)].
    + now rewrite J, Jm.
    + now rewrite J, GA, Jm.
  - assert (NI : ~ In k (Py.keys (_attributes self)))
      by (intros J; apply mem_keys in J; congruence).
    destruct (Spec k) as [[Em Ei] _]; [exact NI|].
    rewrite Ei, Em. now destruct (Py.get k (_items self)).
Qed.

Lemma C9_witness :
  returned (Model.validate SampleRuntime.rt Samples.person_42)
  = Ok [("age", VInt 42); ("nick", VNone)]
  /\ exists m2,
       returned (Model.validate SampleRuntime.rt
                   (self_after (Model.validate SampleRuntime.rt Samples.person_42)))
       = Ok m2
       /\ forall k, Py.get k m2 = Py.get k [("age", VInt 42); ("nick", VNone)].
Proof.
  split; [reflexivity|].
  exact (@C9_validate_twice SampleRuntime.rt Samples.person_42
           [("age", VInt 42); ("nick", VNone)] eq_refl eq_refl eq_refl eq_refl).
Defined.

(** [add_validator] with [None], a key or a non-empty list of keys leaves
    a non-empty registry. *)
Lemma add_validator_registers self key_name h :
  key_name <> many_keys [] ->
  exists c d, _validators (Model.add_validator self key_name h) = Some (c :: d).
Proof.
  intros NE. unfold Model.add_validator. cbn [_validators with_validators].
  set (f := fun vs k => match Py.get k vs with
                        | Some l => Py.set k (l ++ [two_params h])%list vs
                        | None => Py.set k [two_params h] vs
                        end).
  assert (S : forall k v (d : validator_registry), Py.set k v d <> []).
  { intros k v [|[k0 v0] r]; simpl; [discriminate|].
    destruct (Py.keqb k k0); discriminate. }
  assert (F1 : forall k vs, f vs k <> []).
  { intros k vs. unfold f. destruct (Py.get k vs); apply S. }
  assert (F : forall ks vs, vs <> [] -> fold_left f ks vs <> []).
  { induction ks as [|k r IH]; intros vs N; simpl; [exact N|]. apply IH, F1. }
  assert (G : forall ks vs, ks <> [] -> fold_left f ks vs <> []).
  { intros [|k r] vs N; [contradiction|]. simpl. apply F, F1. }
  match goal with |- exists c d, Some ?r = _ => assert (R : r <> []) end.
  { apply G. destruct key_name as [|k|[|k r]]; try discriminate.
    contradiction. }
  match goal with |- exists c d, Some ?r = _ => destruct r as [|c d] end;
    [contradiction|eauto].
Qed.

(** C10.  Once a validator is registered, a [validate] that returns has
    set every attribute without a chain of its own to [None], in the
    mapping it returns and in the Item Store. *)
Theorem C10_unchained_attributes_become_None :
  forall rt self d m,
    _validators self = Some d ->
    d <> [] ->
    returned (Model.validate rt self) = Ok m ->
    forall key,
      Py.mem key (_attributes self) = true ->
      Py.get (Some key) d = None ->
      Py.get key m = Some VNone
      /\ Py.get key (_items (self_after (Model.validate rt self))) = Some VNone.
Proof.
  intros rt self d m V ND R key MK G.
  unfold Model.validate in *.
  destruct (Model.first_unknown _ _); [discriminate|].
  set (typed := Model.reconcile rt (_attributes self) (_items self) self []) in *.
  pose proof (reconcile_keeps rt (_attributes self) (_items self) self [])
    as (_ & _ & KV & _).
  fold typed in KV.
  destruct (returned typed) as [m1|e] eqn:R1.
  2:{ rewrite R1 in R. discriminate. }
  rewrite KV, V in R |- *.
  destruct d as [|c d]; [contradiction|].
  cbn [returned self_after] in R |- *.
  destruct (Model.chain_loop (c :: d)
              match Py.get None (c :: d) with Some l => l | None => [] end
              m1 m1 (self_after typed)) as [r s'] eqn:C.
  cbn [fst snd] in R |- *. subst r.
  destruct (chain_loop_spec _ _ _ _ _ C key) as [S _].
  apply S; [|exact G].
  apply (reconcile_has_keys rt _ _ _ _ R1). left. now apply mem_keys.
Qed.

Lemma C10_witness :
  returned (Model.validate SampleRuntime.rt Samples.audited_x)
  = Ok [("name", VNone)]
  /\ Py.get "name" [("name", VNone)] = Some VNone
  /\ Py.get "name"
       (_items (self_after (Model.validate SampleRuntime.rt Samples.audited_x)))
     = Some VNone.
Proof.
  split; [reflexivity|].
  apply (@C10_unchained_attributes_become_None SampleRuntime.rt Samples.audited_x
           [(None, [fun v (_ : string) => Ok v])] [("name", VNone)]
           eq_refl).
  - discriminate.
  - reflexivity.
  - reflexivity.
  - reflexivity.
Defined.

(** ** Claims about construction and [ignore_attribute] *)

Lemma drop_private_loop_eq di pending (kwargs : sdict value) :
  Model.drop_private_loop di pending kwargs =
  if negb (Nat.eqb (List.length kwargs) di) then Raise RuntimeError
  else
    match pending with
    | [] => Ok kwargs
    | key :: rest =>
        if Py.startswith key "_"
        then Model.drop_private_loop di rest (Py.del key kwargs)
        else Model.drop_private_loop di rest kwargs
    end.
Proof. destruct pending; reflexivity. Qed.

(** Without a private key the first loop of [__init__] leaves [kwargs]
    as it is. *)
Lemma drop_private_loop_ok pending : forall kwargs : sdict value,
  forallb (fun k => negb (Py.startswith k "_")) pending = true ->
  Model.drop_private_loop (List.length kwargs) pending kwargs = Ok kwargs.
Proof.
  induction pending as [|k r IH]; intros kwargs F; rewrite drop_private_loop_eq;
    rewrite Nat.eqb_refl; simpl; [reflexivity|].
  simpl in F. apply andb_prop in F as [F1 F2].
  apply negb_true_iff in F1. rewrite F1. now apply IH.
Qed.

(** With one the iterator finds the dict shorter at its next step. *)
Lemma drop_private_loop_raises post : forall pre : sdict value,
  existsb (fun k => Py.startswith k "_") (Py.keys post) = true ->
  Model.drop_private_loop (List.length (pre ++ post)%list) (Py.keys post) (pre ++ post)%list
  = Raise RuntimeError.
Proof.
  induction post as [|[k v] post IH]; intros pre E; [discriminate|].
  rewrite drop_private_loop_eq, Nat.eqb_refl. simpl.
  destruct (Py.startswith k "_") eqn:P.
  - rewrite drop_private_loop_eq.
    assert (L : S (List.length (Py.del k (pre ++ (k, v) :: post)%list))
                = List.length (pre ++ (k, v) :: post)%list).
    { apply del_length. unfold Py.keys. rewrite map_app. apply in_or_app.
      right. now left. }
    destruct (Nat.eqb_spec (List.length (Py.del k (pre ++ (k, v) :: post)%list))
                (List.length (pre ++ (k, v) :: post)%list)) as [Q|Q]; [lia|reflexivity].
  - simpl in E. rewrite P in E. simpl in E.
    replace (pre ++ (k, v) :: post)%list with ((pre ++ [(k, v)]) ++ post)%list
      by (rewrite <- app_assoc; reflexivity).
    now apply IH.
Qed.

(** C8.  The claim: construction drops the keys that start with an
    underscore and succeeds.  In the code the loop deletes such a key from
    the dict it is iterating over, and construction ends with the
    iterator's [RuntimeError]. *)
Theorem C8_private_key_aborts_construction :
  forall cls kwargs key,
    In key (Py.keys kwargs) ->
    Py.startswith key "_" = true ->
    Model.__init__ cls kwargs = Raise RuntimeError.
Proof.
  intros cls kwargs key I P. unfold Model.__init__.
  assert (E : existsb (fun k => Py.startswith k "_") (Py.keys kwargs) = true)
    by (apply existsb_exists; now exists key).
  pose proof (drop_private_loop_raises kwargs [] E) as L. simpl in L.
  now rewrite L.
Qed.

Lemma C8_witness :
  In "_secret" (Py.keys [("age", VStr "42"); ("_secret", VInt 1)])
  /\ Model.__init__ Samples.Person [("age", VStr "42"); ("_secret", VInt 1)]
     = Raise RuntimeError.
Proof.
  split; [right; left; reflexivity|].
  exact (@C8_private_key_aborts_construction Samples.Person
           [("age", VStr "42"); ("_secret", VInt 1)] "_secret"
           (or_intror (or_introl eq_refl)) eq_refl).
Defined.

Lemma attributes_loop_eq cls di pending self :
  Model.attributes_loop cls di pending self =
  if negb (Nat.eqb (List.length (_attributes self)) di) then Raise RuntimeError
  else
    match pending with
    | [] => Ok self
    | attr_name :: rest =>
        if Py.startswith attr_name "_" then
          Model.attributes_loop cls di rest
            (with_attributes (Py.del attr_name (_attributes self)) self)
        else
          match Model.object_getattribute cls self attr_name with
          | None => Model.attributes_loop cls di rest self
          | Some item =>
              match Model.object_delattr self attr_name with
              | None => Model.attributes_loop cls di rest self
              | Some self =>
                  match
                    match _rainbows_default item with
                    | Some rainbows_default => rainbows_default self
                    | None => Ok (attr_value item)
                    end
                  with
                  | Raise e => Raise e
                  | Ok item =>
                      Model.attributes_loop cls di rest
                        (with_defaults (Py.set attr_name item (_defaults self)) self)
                  end
              end
          end
    end.
Proof. destruct pending; reflexivity. Qed.

(** While the instance has no attribute of its own to delete, the loop
    over the annotations stores no default. *)
Lemma attributes_loop_no_default cls di pending : forall self self',
  __dict__ self = [] ->
  Model.attributes_loop cls di pending self = Ok self' ->
  _defaults self' = _defaults self.
Proof.
  induction pending as [|a r IH]; intros self self' D L;
    rewrite attributes_loop_eq in L;
    destruct (negb _); try discriminate.
  - now injection L as <-.
  - destruct (Py.startswith a "_").
    + now apply IH in L.
    + unfold Model.object_delattr, Py.mem in L. rewrite D in L. simpl in L.
      destruct (Model.object_getattribute cls self a); now apply IH in L.
Qed.

(** Registering the decorated methods touches [_validators] only. *)
Lemma decorated_fields l : forall self,
  let self' :=
    fold_left (fun s d => Model.add_validator s (fst d) (snd d)) l self in
  __dict__ self' = __dict__ self /\ _defaults self' = _defaults self.
Proof.
  induction l as [|d l IH]; intros self; simpl; [split; reflexivity|].
  apply (IH (Model.add_validator self (fst d) (snd d))).
Qed.

(** C3.  The claim: construction records a class-level default in the
    Default Store.  In the code [object.__delattr__] is asked to delete
    from the instance an attribute that lives on the class; it raises
    [AttributeError], the [except] clause swallows it, and no default is
    ever stored: after every construction the Default Store is empty. *)
Theorem C3_construction_stores_no_default :
  forall cls kwargs self,
    Model.__init__ cls kwargs = Ok self -> _defaults self = [].
Proof.
  intros cls kwargs self. unfold Model.__init__, bind.
  destruct (Model.drop_private_loop _ _ _) as [kw|]; [|discriminate].
  pose proof (decorated_fields (decorated cls) (mk_instance [] [] kw [] None None))
    as [D1 D2].
  intros L. apply attributes_loop_no_default in L.
  - rewrite L. exact D2.
  - exact D1.
Qed.

Lemma C3_witness :
  Model.__init__ Samples.WithDefault [] = Ok Samples.with_default_new
  /\ _defaults Samples.with_default_new = [].
Proof.
  split; [reflexivity|].
  exact (@C3_construction_stores_no_default Samples.WithDefault []
           Samples.with_default_new eq_refl).
Defined.

(** A default that does sit in the Default Store is handed to
    [_validate_attr] in the place of the type, and [validate] raises
    [TypeError]. *)
Example stored_default_is_refused rt :
  returned (Model.validate rt (mk_instance [] [("a", VInt 5)] [] [("a", Samples.int_)]
                                 None None))
  = Raise TypeError.
Proof. reflexivity. Qed.

(** The instance of [a: int = 5] built without arguments fails
    validation for want of [a]. *)
Example with_default_fails rt :
  Model.__init__ Samples.WithDefault [] = Ok Samples.with_default_new
  /\ returned (Model.validate rt Samples.with_default_new)
     = Raise (ValidationError "a").
Proof. split; reflexivity. Qed.

(** C2.  The claim: after [ignore_attribute(k)] a value supplied for [k]
    before is readable as a plain attribute, and [validate] does not ask
    for [k].  In the code [k] joins [_ignored_attrs] last: the [setattr]
    that should move the value finds [k] not yet ignored, writes it back
    to the Item Store, and the next line deletes it.  Unless the class
    itself has an attribute [k], reading [k] afterwards raises
    [AttributeError]. *)
Theorem C2_ignore_attribute_drops_the_value :
  forall cls self key v,
    Py.unique_keys (_items self) = true ->
    Py.unique_keys (_defaults self) = true ->
    Py.get key (_items self) = Some v ->
    Py.startswith key "_" = false ->
    Py.str_in key (match _ignored_attrs self with Some l => l | None => [] end)
    = false ->
    Py.get key (__dict__ self) = None ->
    Py.get key (class_attrs cls) = None ->
    Model.getattr cls (Model.ignore_attribute self key) key = Raise AttributeError.
Proof.
  intros cls self key v UI UD GI P NI GD GC.
  apply unique_keys_NoDup in UI. apply unique_keys_NoDup in UD.
  unfold Model.ignore_attribute.
  set (s1 := with_ignored_attrs _ self).
  set (s2 := if Py.mem key (_defaults s1) then _ else s1).
  assert (I2 : _items s2 = _items self)
    by (unfold s2; destruct (Py.mem key (_defaults s1)); reflexivity).
  assert (D2 : Py.get key (_defaults s2) = None).
  { unfold s2. destruct (Py.mem key (_defaults s1)) eqn:M; simpl.
    - now apply get_del_unique.
    - unfold Py.mem in M. simpl in M. now destruct (Py.get key (_defaults self)). }
  assert (X2 : __dict__ s2 = __dict__ self /\ _ignored_attrs s2 = _ignored_attrs s1)
    by (unfold s2; destruct (Py.mem key (_defaults s1)); split; reflexivity).
  destruct X2 as [X2 G2].
  rewrite I2, GI.
  unfold Model.__setattr__. rewrite G2. simpl _ignored_attrs.
  rewrite P, NI. simpl.
  unfold Model.getattr, Model.object_getattribute, Model.__getattr__. simpl.
  rewrite X2, GD, GC, D2, I2.
  erewrite set_get_id by exact GI.
  now rewrite get_del_unique by exact UI.
Qed.

Lemma C2_witness :
  Py.get "table_name" (_items Samples.plain_foo) = Some (VStr "foo")
  /\ Model.getattr Samples.Plain
       (Model.ignore_attribute Samples.plain_foo "table_name") "table_name"
     = Raise AttributeError.
Proof.
  split; [reflexivity|].
  exact (@C2_ignore_attribute_drops_the_value Samples.Plain Samples.plain_foo
           "table_name" (VStr "foo")
           eq_refl eq_refl eq_refl eq_refl eq_refl eq_refl eq_refl).
Defined.

(** [Record(table_name="foo")] ends without the value anywhere; only a
    value set after construction is kept as a plain attribute. *)
Example record_loses_table_name :
  exists self,
    record.__init__ Samples.Plain [("table_name", VStr "foo")] = Ok self
    /\ _items self = [] /\ __dict__ self = []
    /\ _ignored_attrs self = Some ["table_name"; "connection_name"]
    /\ __dict__ (Model.__setattr__ self "table_name" (VStr "foo"))
       = [("table_name", VStr "foo")].
Proof. eexists. split; [reflexivity|]. repeat split. Qed.

(** An ignored key that the class annotates stays in the schema, and
    [validate] still asks for it. *)
Example ignored_key_still_required rt :
  exists self,
    Model.__init__ Samples.Tabled [("table_name", VStr "foo")] = Ok self
    /\ returned (Model.validate rt (Model.ignore_attribute self "table_name"))
       = Raise (ValidationError "table_name").
Proof. eexists. split; reflexivity. Qed.

(** * Further properties *)

(** ** Integers and their decimal form *)

Lemma lstrip_no_space s : no_space s = true -> Py.lstrip s = s.
Proof.
  destruct s as [|c r]; simpl; [reflexivity|].
  intros H. apply andb_prop in H as [H _].
  apply negb_true_iff in H. now rewrite H.
Qed.

Lemma rev_str_rev_str s : forall a b,
  Py.rev_str b (Py.rev_str a s) = Py.rev_str (s ++ b) a.
Proof.
  induction s as [|c r IH]; intros a b; simpl; [reflexivity|].
  now rewrite IH.
Qed.

Lemma no_space_rev_str s : forall a,
  no_space a = true -> no_space s = true -> no_space (Py.rev_str a s) = true.
Proof.
  induction s as [|c r IH]; intros a A S; simpl; [exact A|].
  simpl in S. apply andb_prop in S as [S1 S2].
  apply IH; [simpl; now rewrite S1, A|exact S2].
Qed.

Lemma append_empty s : (s ++ "")%string = s.
Proof. induction s as [|c r IH]; simpl; [reflexivity|now rewrite IH]. Qed.

Lemma strip_no_space s : no_space s = true -> Py.strip s = s.
Proof.
  intros H. unfold Py.strip.
  rewrite (lstrip_no_space s H).
  rewrite (lstrip_no_space (Py.rev_str "" s)) by now apply no_space_rev_str.
  rewrite rev_str_rev_str. simpl. apply append_empty.
Qed.

Lemma no_space_numeral u : no_space (NilEmpty.string_of_uint u) = true.
Proof. induction u; simpl; auto. Qed.

Lemma digits_numeral u : forall acc,
  Py.digits acc true (NilEmpty.string_of_uint u) = Some (uint_value acc u).
Proof. induction u; intros acc; simpl; auto. Qed.

Lemma digits_numeral_start u acc :
  u <> Decimal.Nil ->
  Py.digits acc false (NilEmpty.string_of_uint u) = Some (uint_value acc u).
Proof. destruct u; intros N; [contradiction|..]; simpl; apply digits_numeral. Qed.

Lemma uint_value_acc u : forall acc,
  Z.pos (Pos.of_uint_acc u acc) = uint_value (Z.pos acc) u.
Proof.
  induction u; intros acc; cbn [Pos.of_uint_acc uint_value]; [reflexivity|..];
    rewrite IHu; f_equal; lia.
Qed.

Lemma uint_value_of_uint u : Z.of_N (Pos.of_uint u) = uint_value 0 u.
Proof.
  induction u; simpl; [reflexivity|exact IHu|..]; apply uint_value_acc.
Qed.

Lemma uint_value_to_uint p : uint_value 0 (Pos.to_uint p) = Z.pos p.
Proof.
  rewrite <- uint_value_of_uint, DecimalPos.Unsigned.of_to. reflexivity.
Qed.

Lemma count_digits_numeral u :
  Py.count_digits (NilEmpty.string_of_uint u) = Decimal.nb_digits u.
Proof. induction u; simpl; auto. Qed.

Lemma int_of_numeral u :
  u <> Decimal.Nil ->
  (Decimal.nb_digits u <= Py.int_max_str_digits)%nat ->
  Py.int_of_str (NilEmpty.string_of_uint u) = Some (uint_value 0 u).
Proof.
  intros N L. apply Nat.leb_le in L. unfold Py.int_of_str.
  rewrite strip_no_space by apply no_space_numeral.
  rewrite <- count_digits_numeral in L.
  destruct u; [contradiction|..];
    cbn [NilEmpty.string_of_uint] in L |- *; rewrite L;
    simpl; apply digits_numeral.
Qed.

Lemma int_of_minus_numeral u :
  u <> Decimal.Nil ->
  (Decimal.nb_digits u <= Py.int_max_str_digits)%nat ->
  Py.int_of_str (String "-" (NilEmpty.string_of_uint u))
  = Some (- uint_value 0 u).
Proof.
  intros N L. apply Nat.leb_le in L. unfold Py.int_of_str.
  rewrite strip_no_space by (simpl; apply no_space_numeral).
  rewrite count_digits_numeral, L.
  now rewrite (digits_numeral_start 0 N).
Qed.

(** The numeral of a positive number has no leading zero... *)
Lemma to_uint_normal p : Decimal.nzhead (Pos.to_uint p) = Pos.to_uint p.
Proof.
  assert (U : Decimal.unorm (Pos.to_uint p) = Pos.to_uint p).
  { rewrite <- (DecimalN.Unsigned.to_of (Pos.to_uint p)).
    unfold N.of_uint. now rewrite DecimalPos.Unsigned.of_to. }
  unfold Decimal.unorm in U.
  destruct (Decimal.nzhead (Pos.to_uint p)) eqn:H; try exact U.
  exfalso. apply (DecimalPos.Unsigned.to_uint_nonzero p). now symmetry.
Qed.

Lemma uint_value_split u : forall acc,
  uint_value acc u = acc * 10 ^ Z.of_nat (Decimal.nb_digits u) + uint_value 0 u
  /\ 0 <= uint_value 0 u.
Proof.
  induction u; intros acc; cbn [uint_value Decimal.nb_digits];
    [split; lia|..];
    rewrite Nat2Z.inj_succ, Z.pow_succ_r by lia;
    match goal with
    | |- uint_value ?a u = _ /\ 0 <= uint_value ?b u =>
        destruct (IHu a) as [-> P]; destruct (IHu b) as [E Q]; rewrite E
    end;
    pose proof (Z.pow_pos_nonneg 10 (Z.of_nat (Decimal.nb_digits u))
                  ltac:(lia) ltac:(lia));
    split; nia.
Qed.

(** ... so a numeral of [d] digits stands for 10^(d-1) at least. *)
Lemma numeral_lower_bound u :
  u <> Decimal.Nil -> Decimal.nzhead u = u ->
  10 ^ (Z.of_nat (Decimal.nb_digits u) - 1) <= uint_value 0 u.
Proof.
  intros N H.
  destruct u; [contradiction|..]; cbn [uint_value Decimal.nb_digits];
    rewrite Nat2Z.inj_succ;
    match goal with
    | |- 10 ^ (Z.succ ?z - 1) <= _ => replace (Z.succ z - 1) with z by lia
    end.
  1:{ exfalso. simpl in H.
      match type of H with
      | Decimal.nzhead ?r = _ =>
          pose proof (DecimalFacts.nb_digits_nzhead r) as L
      end.
      rewrite H in L. simpl in L. lia. }
  all: match goal with
       | |- 10 ^ Z.of_nat (Decimal.nb_digits ?r) <= uint_value ?a ?r =>
           destruct (uint_value_split r a) as [-> P];
           pose proof (Z.pow_pos_nonneg 10 (Z.of_nat (Decimal.nb_digits r))
                         ltac:(lia) ltac:(lia))
       end;
    nia.
Qed.

Lemma numeral_size p k :
  Z.pos p < 10 ^ Z.of_nat k -> (Decimal.nb_digits (Pos.to_uint p) <= k)%nat.
Proof.
  intros B.
  pose proof (numeral_lower_bound (DecimalPos.Unsigned.to_uint_nonnil p)
                (to_uint_normal p)) as L.
  rewrite uint_value_to_uint in L.
  destruct (Nat.le_gt_cases (Decimal.nb_digits (Pos.to_uint p)) k) as [|G];
    [assumption|exfalso].
  assert (10 ^ Z.of_nat k <= 10 ^ (Z.of_nat (Decimal.nb_digits (Pos.to_uint p)) - 1))
    by (apply Z.pow_le_mono_r; lia).
  lia.
Qed.

Lemma str_of_int_size n :
  Z.abs n < 10 ^ 4300 ->
  (Py.count_digits (Py.str_of_int n) <= Py.int_max_str_digits)%nat.
Proof.
  intros B. unfold Py.str_of_int.
  destruct n as [|p|p]; [cbv; lia|..]; simpl Z.to_int;
    cbn [NilZero.string_of_int];
    pose proof (DecimalPos.Unsigned.to_uint_nonnil p) as NN;
    unfold NilZero.string_of_uint;
    destruct (Pos.to_uint p) eqn:E; try contradiction; rewrite <- E;
    cbn [Py.count_digits Py.digit_of]; try rewrite count_digits_numeral;
    apply numeral_size; exact B.
Qed.

(** [str(n)] returns for an integer below 10^4300 in magnitude, and only
    for such a one. *)
Lemma str_int_Some n :
  Z.abs n < 10 ^ 4300 -> Py.str_int n = Some (Py.str_of_int n).
Proof.
  intros B. unfold Py.str_int. apply str_of_int_size in B.
  apply Nat.leb_le in B. now rewrite B.
Qed.

Lemma numeral_upper_bound u : uint_value 0 u < 10 ^ Z.of_nat (Decimal.nb_digits u).
Proof.
  induction u; cbn [uint_value Decimal.nb_digits]; [simpl; lia|..];
    rewrite Nat2Z.inj_succ, Z.pow_succ_r by lia;
    match goal with
    | |- uint_value ?a u < _ => destruct (uint_value_split u a) as [-> P]
    end;
    lia.
Qed.

Lemma numeral_long p k :
  10 ^ Z.of_nat k <= Z.pos p -> (k < Decimal.nb_digits (Pos.to_uint p))%nat.
Proof.
  intros B.
  pose proof (numeral_upper_bound (Pos.to_uint p)) as U.
  rewrite uint_value_to_uint in U.
  destruct (Nat.le_gt_cases (Decimal.nb_digits (Pos.to_uint p)) k) as [L|G];
    [exfalso|assumption].
  assert (10 ^ Z.of_nat (Decimal.nb_digits (Pos.to_uint p)) <= 10 ^ Z.of_nat k)
    by (apply Z.pow_le_mono_r; lia).
  lia.
Qed.

Lemma str_of_int_long n :
  10 ^ 4300 <= Z.abs n ->
  (Py.int_max_str_digits < Py.count_digits (Py.str_of_int n))%nat.
Proof.
  intros B. unfold Py.str_of_int.
  destruct n as [|p|p];
    [exfalso; apply Z.leb_le in B; vm_compute in B; discriminate|..];
    simpl Z.to_int; cbn [NilZero.string_of_int];
    pose proof (DecimalPos.Unsigned.to_uint_nonnil p) as NN;
    unfold NilZero.string_of_uint;
    destruct (Pos.to_uint p) eqn:E; try contradiction; rewrite <- E;
    cbn [Py.count_digits Py.digit_of]; try rewrite count_digits_numeral;
    apply numeral_long; exact B.
Qed.

Lemma str_int_too_long n : 10 ^ 4300 <= Z.abs n -> Py.str_int n = None.
Proof.
  intros B. unfold Py.str_int. apply str_of_int_long in B.
  apply Nat.leb_gt in B. now rewrite B.
Qed.

Lemma int_of_long_numeral u :
  (Py.int_max_str_digits < Decimal.nb_digits u)%nat ->
  Py.int_of_str (NilEmpty.string_of_uint u) = None.
Proof.
  intros L. apply Nat.leb_gt in L. unfold Py.int_of_str.
  rewrite strip_no_space by apply no_space_numeral.
  rewrite <- count_digits_numeral in L.
  destruct u; [discriminate L|..];
    cbn [NilEmpty.string_of_uint] in L |- *; now rewrite L.
Qed.

Lemma int_of_long_minus_numeral u :
  (Py.int_max_str_digits < Decimal.nb_digits u)%nat ->
  Py.int_of_str (String "-" (NilEmpty.string_of_uint u)) = None.
Proof.
  intros L. apply Nat.leb_gt in L. unfold Py.int_of_str.
  rewrite strip_no_space by (simpl; apply no_space_numeral).
  now rewrite count_digits_numeral, L.
Qed.

Lemma int_of_str_too_long n :
  10 ^ 4300 <= Z.abs n -> Py.int_of_str (Py.str_of_int n) = None.
Proof.
  intros B. unfold Py.str_of_int.
  destruct n as [|p|p];
    [exfalso; apply Z.leb_le in B; vm_compute in B; discriminate|..]; simpl;
    pose proof (DecimalPos.Unsigned.to_uint_nonnil p) as NN;
    pose proof (@numeral_long p Py.int_max_str_digits B) as L;
    unfold NilZero.string_of_uint;
    destruct (Pos.to_uint p) eqn:E; try contradiction; rewrite <- E in L |- *.
  all: first [ apply int_of_long_numeral | apply int_of_long_minus_numeral ];
    exact L.
Qed.

Lemma str_int_None n : Py.str_int n = None -> 10 ^ 4300 <= Z.abs n.
Proof.
  intros E. destruct (Z.lt_ge_cases (Z.abs n) (10 ^ 4300)) as [B|B]; [|exact B].
  rewrite (str_int_Some n B) in E. discriminate.
Qed.

(** [int(str(n))] is [n]. *)
Lemma int_of_str_of_int n :
  Z.abs n < 10 ^ 4300 -> Py.int_of_str (Py.str_of_int n) = Some n.
Proof.
  intros B. unfold Py.str_of_int.
  destruct n as [|p|p]; [reflexivity|..]; simpl;
    pose proof (DecimalPos.Unsigned.to_uint_nonnil p) as NN;
    pose proof (@numeral_size p Py.int_max_str_digits B) as L;
    unfold NilZero.string_of_uint;
    destruct (Pos.to_uint p) eqn:E; try contradiction; rewrite <- E in NN, L |- *.
  all: first [ rewrite (int_of_numeral NN L)
             | rewrite (int_of_minus_numeral NN L) ];
    now rewrite uint_value_to_uint.
Qed.

(** ** The coercers *)

(** X1.  A coercer that fails raises a [ValidationError] that names the
    key it was called for, with two exceptions: the datetime coercer on a
    string (see C7), and the str coercer on an integer of more than 4300
    digits, where the [ValueError] of [str] comes through. *)
Theorem X1_coercer_error_names_the_key :
  forall rt t key x e,
    BUILT_IN_VALIDATORS rt t key x = Raise e ->
    e = ValidationError key
    \/ (t = t_datetime /\ exists s, x = VStr s)
    \/ (t = t_str /\ e = ValueError
        /\ exists n, x = VInt n /\ 10 ^ 4300 <= Z.abs n).
Proof.
  intros rt t key x e R.
  destruct (coercer_failure rt t key x R) as [E|[D|(T & E & n & X & N)]]; auto.
  right. right. repeat split; auto. exists n. split; [exact X|].
  now apply str_int_None.
Qed.

Lemma X1_witness :
  BUILT_IN_VALIDATORS SampleRuntime.rt t_int "age" (VFloat 0)
  = Raise (ValidationError "age")
  /\ (ValidationError "age" = ValidationError "age"
      \/ (t_int = t_datetime /\ exists s, VFloat 0 = VStr s)
      \/ (t_int = t_str /\ ValidationError "age" = ValueError
          /\ exists n, VFloat 0 = VInt n /\ 10 ^ 4300 <= Z.abs n)).
Proof.
  split; [reflexivity|].
  exact (@X1_coercer_error_names_the_key SampleRuntime.rt t_int "age" (VFloat 0)
           (ValidationError "age") eq_refl).
Defined.

(** The str coercer on integers, in full, and the int coercer on a
    numeral that is too long. *)
Lemma str_coercer_on_integers rt key n :
  _validate_str rt key (VInt n)
  = if Z.abs n <? 10 ^ 4300 then Ok (VStr (Py.str_of_int n)) else Raise ValueError.
Proof.
  unfold _validate_str.
  destruct (Z.ltb_spec (Z.abs n) (10 ^ 4300)) as [B|B].
  - now rewrite (str_int_Some n B).
  - now rewrite (str_int_too_long n B).
Qed.

Lemma int_coercer_on_long_numerals key n :
  10 ^ 4300 <= Z.abs n ->
  _validate_int key (VStr (Py.str_of_int n)) = Raise (ValidationError key).
Proof.
  intros B. unfold _validate_int. cbn [isinstance].
  now rewrite (int_of_str_too_long n B).
Qed.

(** X2.  Coercion is idempotent: what a coercer returned, the same
    coercer returns unchanged, under any key. *)
Theorem X2_coercion_is_idempotent :
  forall rt t key x y,
    BUILT_IN_VALIDATORS rt t key x = Ok y ->
    forall key', BUILT_IN_VALIDATORS rt t key' y = Ok y.
Proof.
  intros rt t key x y R key'. apply coercer_keeps_instance.
  exact (coercer_returns_instance rt t key x R).
Qed.

Lemma X2_witness :
  BUILT_IN_VALIDATORS SampleRuntime.rt t_int "age" (VStr " 42 ") = Ok (VInt 42)
  /\ BUILT_IN_VALIDATORS SampleRuntime.rt t_int "other" (VInt 42) = Ok (VInt 42).
Proof.
  split; [reflexivity|].
  exact (@X2_coercion_is_idempotent SampleRuntime.rt t_int "age" (VStr " 42 ")
           (VInt 42) eq_refl "other").
Defined.

(** X3.  An integer coerced to a string and that string coerced to an
    integer is the integer again.  (Stated for integers of at most 4300
    digits, which every CPython converts to a string.) *)
Theorem X3_int_str_int_round_trip :
  forall rt key key' n,
    Z.abs n < 10 ^ 4300 ->
    exists s,
      _validate_str rt key (VInt n) = Ok (VStr s)
      /\ _validate_int key' (VStr s) = Ok (VInt n).
Proof.
  intros rt key key' n B. exists (Py.str_of_int n). split.
  - simpl. now rewrite (str_int_Some n B).
  - unfold _validate_int. simpl. now rewrite (int_of_str_of_int n B).
Qed.

Lemma X3_witness :
  Z.abs (-2020) < 10 ^ 4300
  /\ exists s,
       _validate_str SampleRuntime.rt "year" (VInt (-2020)) = Ok (VStr s)
       /\ _validate_int "year" (VStr s) = Ok (VInt (-2020)).
Proof.
  assert (B : Z.abs (-2020) < 10 ^ 4300) by (apply Z.ltb_lt; vm_compute; reflexivity).
  split; [exact B|].
  exact (@X3_int_str_int_round_trip SampleRuntime.rt "year" "year" (-2020) B).
Defined.

(** ** Unions *)

(** X4.  When every branch of a union fails with an error the union
    catches, the union raises the error of its last branch.  For
    [Optional[T]] the last branch is [NoneType], so a value that [T]
    refuses surfaces as a [TypeError]. *)
Theorem X4_union_raises_the_last_error :
  forall rt types t item key e,
    item <> VNone ->
    Forall (passed_over (fun u => _validate_attr rt u item key)) types ->
    is_None t = false ->
    _validate_attr rt t item key = Raise e ->
    caught_by_union e = true ->
    _validate_attr rt (Union (types ++ [t])) item key = Raise e.
Proof.
  intros rt types t item key e NN F N R C.
  rewrite _validate_attr_Union.
  replace (match item with VNone => true | _ => false end) with false
    by (destruct item; try reflexivity; contradiction).
  cbn [andb].
  destruct (union_loop_app
              (rec := fun u => _validate_attr rt u item key) [t] None F)
    as [l' ->].
  simpl. now rewrite N, R, C.
Qed.

Lemma X4_witness :
  _validate_attr SampleRuntime.rt Samples.int_ (VStr "abc") "age"
  = Raise (ValidationError "age")
  /\ _validate_attr SampleRuntime.rt (Optional Samples.int_) (VStr "abc") "age"
     = Raise TypeError.
Proof.
  split; [reflexivity|].
  apply (@X4_union_raises_the_last_error SampleRuntime.rt
           [Samples.int_] NoneType (VStr "abc") "age" TypeError).
  - discriminate.
  - constructor; [|constructor]. right. exists (ValidationError "age").
    split; reflexivity.
  - reflexivity.
  - reflexivity.
  - reflexivity.
Defined.

(** ** [validate]: what a call that returns went through *)

Section ValidateFacts.
Variable rt : runtime.

Lemma first_unknown_Some ks (attrs : sdict ty) k :
  Model.first_unknown ks attrs = Some k ->
  exists pre post,
    ks = (pre ++ k :: post)%list
    /\ Forall (fun x => Py.mem x attrs = true) pre
    /\ Py.mem k attrs = false.
Proof.
  induction ks as [|k0 r IH]; simpl; [discriminate|].
  destruct (Py.mem k0 attrs) eqn:M; simpl.
  - intros F. destruct (IH F) as (pre & post & -> & P & N).
    exists (k0 :: pre), post. repeat split; auto.
  - intros [= <-]. exists [], r. repeat split; auto.
Qed.

(** A call of [validate] that returns a mapping found no unknown key,
    came out of the loop over the schema with a mapping [m1], and either
    returned it (no validator registered) or ran the chain on it. *)
Lemma validate_cases self m :
  returned (Model.validate rt self) = Ok m ->
  let typed := Model.reconcile rt (_attributes self) (_items self) self [] in
  Model.first_unknown (Py.keys (_items self)) (_attributes self) = None
  /\ attr_calls (Model.validate rt self) = attr_calls typed
  /\ exists m1,
       returned typed = Ok m1
       /\ ((no_validators self = true /\ m = m1
            /\ self_after (Model.validate rt self) = self_after typed)
           \/ (exists d,
                 _validators self = Some d /\ d <> []
                 /\ Model.chain_loop d (all_gobbler d) m1 m1 (self_after typed)
                    = (Ok m, self_after (Model.validate rt self)))).
Proof.
  intros R typed. unfold Model.validate in *. fold typed in R |- *.
  destruct (Model.first_unknown _ _); [discriminate|].
  split; [reflexivity|].
  pose proof (reconcile_keeps rt (_attributes self) (_items self) self [])
    as (_ & _ & KV & _).
  fold typed in KV. cbv zeta in KV.
  destruct (returned typed) as [m1|e] eqn:R1.
  2:{ rewrite R1 in R. discriminate. }
  rewrite KV in R |- *. unfold no_validators.
  destruct (_validators self) as [[|c d]|] eqn:V.
  - split; [reflexivity|]. exists m1. split; [reflexivity|]. left.
    rewrite R1 in R. injection R as <-. auto.
  - split; [reflexivity|]. exists m1. split; [reflexivity|]. right.
    exists (c :: d). split; [reflexivity|]. split; [discriminate|].
    cbn [returned self_after] in R |- *. unfold all_gobbler.
    destruct (Model.chain_loop (c :: d) _ m1 m1 (self_after typed)) as [r s'].
    cbn [fst snd] in R |- *. now subst r.
  - split; [reflexivity|]. exists m1. split; [reflexivity|]. left.
    rewrite R1 in R. injection R as <-. auto.
Qed.

(** The keys of a mapping the loop over the schema returns come from the
    schema or from the mapping it started with. *)
Lemma reconcile_keys_from sch : forall A self calls m,
  returned (Model.reconcile rt sch A self calls) = Ok m ->
  forall k, In k (Py.keys m) -> In k (Py.keys sch) \/ In k (Py.keys A).
Proof.
  induction sch as [|[key t] rest IH]; intros A self calls m R k I.
  - simpl in R. injection R as <-. auto.
  - rewrite reconcile_cons in R.
    assert (Step : forall A' : sdict value,
              (forall x, In x (Py.keys A') -> x = key \/ In x (Py.keys A)) ->
              In k (Py.keys (V:=ty) rest) \/ In k (Py.keys A') ->
              In k (Py.keys (V:=ty) ((key, t) :: rest)) \/ In k (Py.keys A)).
    { intros A' HA [J|J]; [left; now right|].
      destruct (HA k J) as [->|J']; [left; now left|now right]. }
    destruct (Py.get key A) as [item|].
    + destruct (_validate_attr rt t item key); [|discriminate].
      apply (Step (Py.set key a A)); [intros x; apply keys_set|].
      eapply IH; eauto.
    + destruct (Py.get key (_defaults self)) as [d|].
      * destruct (_validate_attr rt (Obj d) d key); [|discriminate].
        apply (Step (Py.set key a (Py.set key d A))).
        -- intros x Hx. apply keys_set in Hx as [->|Hx]; [now left|].
           now apply keys_set in Hx.
        -- eapply IH; eauto.
      * destruct (Model.is_optional t); [|discriminate].
        apply (Step (Py.set key VNone A)); [intros x; apply keys_set|].
        eapply IH; eauto.
Qed.

(** The chain keeps the keys of the mapping. *)
Lemma chain_loop_keys d g entries : forall (A : sdict value) self m self',
  Model.chain_loop d g entries A self = (Ok m, self') ->
  (forall k, In k (Py.keys entries) -> In k (Py.keys A)) ->
  forall k, In k (Py.keys m) <-> In k (Py.keys A).
Proof.
  induction entries as [|[k0 v0] rest IH]; intros A self m self' R H k.
  - simpl in R. injection R as <- <-. tauto.
  - simpl in R. destruct (bind _ _) as [v1|]; [|discriminate].
    rewrite (IH _ _ _ _ R).
    + rewrite keys_set. split; [intros [->|J]; auto|auto].
      apply H. now left.
    + intros x Hx. apply keys_set. right. apply H. now right.
Qed.

(** The Item Store stays within the mapping, through both loops. *)
Lemma within_set k v (I A : sdict value) :
  within I A -> within (Py.set k v I) (Py.set k v A).
Proof.
  intros W x y. destruct (string_dec k x) as [->|D].
  - now rewrite !get_set_same.
  - rewrite !get_set_other by assumption. apply W.
Qed.

Lemma within_set_right k v (I A : sdict value) :
  within I A -> Py.get k A = None -> within I (Py.set k v A).
Proof.
  intros W N x y G. destruct (string_dec k x) as [->|D].
  - apply W in G. congruence.
  - rewrite get_set_other by assumption. now apply W.
Qed.

Lemma reconcile_within sch : forall A self calls m,
  within (_items self) A ->
  returned (Model.reconcile rt sch A self calls) = Ok m ->
  within (_items (self_after (Model.reconcile rt sch A self calls))) m.
Proof.
  induction sch as [|[key t] rest IH]; intros A self calls m W R.
  - simpl in *. now injection R as <-.
  - rewrite reconcile_cons in R |- *.
    destruct (Py.get key A) as [item|] eqn:GA.
    + destruct (_validate_attr rt t item key); [|discriminate].
      apply IH; [|exact R]. now apply within_set.
    + destruct (Py.get key (_defaults self)) as [d|].
      * discriminate R.
      * destruct (Model.is_optional t); [|discriminate].
        apply IH; [|exact R]. now apply within_set_right.
Qed.

Lemma chain_loop_within d g entries : forall A self m self',
  within (_items self) A ->
  Model.chain_loop d g entries A self = (Ok m, self') ->
  within (_items self') m.
Proof.
  induction entries as [|[k0 v0] rest IH]; intros A self m self' W R.
  - simpl in R. now injection R as <- <-.
  - simpl in R. destruct (bind _ _) as [v1|]; [|discriminate].
    eapply IH; [|exact R]. now apply within_set.
Qed.

(** The chain leaves every field but the Item Store alone. *)
Lemma chain_loop_frame d g entries : forall A self,
  let self' := snd (Model.chain_loop d g entries A self) in
  _defaults self' = _defaults self
  /\ _attributes self' = _attributes self
  /\ _validators self' = _validators self
  /\ __dict__ self' = __dict__ self
  /\ _ignored_attrs self' = _ignored_attrs self.
Proof.
  induction entries as [|[k0 v0] rest IH]; intros A self; [simpl; tauto|].
  simpl. destruct (bind _ _); [|simpl; tauto].
  apply (IH (Py.set k0 a A) (with_items (Py.set k0 a (_items self)) self)).
Qed.

End ValidateFacts.

Lemma unsupported_raises rt t item key :
  unsupported t = true -> _validate_attr rt t item key = Raise TypeError.
Proof.
  destruct t as [v|[b| |n [h|]]| |l|c l]; try discriminate; reflexivity.
Qed.

(** X5.  A field whose annotation has no validator - [typing.Any], a
    subscripted [typing.List], [typing.Dict] or [typing.Set], [NoneType],
    a class without [__validate__], a plain object - never validates once
    it has a value: [validate] raises. *)
Theorem X5_unsupported_annotation_never_validates :
  forall rt self key t v,
    Py.unique_keys (_attributes self) = true ->
    Py.get key (_attributes self) = Some t ->
    unsupported t = true ->
    Py.get key (_items self) = Some v ->
    exists e, returned (Model.validate rt self) = Raise e.
Proof.
  intros rt self key t v U GT UN GI.
  destruct (returned (Model.validate rt self)) as [m|e] eqn:R; [|eauto].
  exfalso. apply unique_keys_NoDup in U.
  destruct (validate_cases rt self R) as (_ & _ & m1 & R1 & _).
  destruct (reconcile_spec rt _ _ _ _ U R1 key) as [_ S].
  destruct (S t (In_get _ _ GT)) as [(x & x' & _ & V & _)|(G & _)].
  - rewrite unsupported_raises in V by exact UN. discriminate.
  - congruence.
Qed.

Lemma X5_witness :
  Py.get "tags" (_attributes Samples.tagged_list)
  = Some (Alias c_list [Samples.str_])
  /\ exists e, returned (Model.validate SampleRuntime.rt Samples.tagged_list) = Raise e.
Proof.
  split; [reflexivity|].
  exact (@X5_unsupported_annotation_never_validates SampleRuntime.rt
           Samples.tagged_list "tags" (Alias c_list [Samples.str_]) (VOther "list")
           eq_refl eq_refl eq_refl eq_refl).
Defined.

(** X6.  When the Item Store holds a key that the schema lacks,
    [validate] raises a [ValidationError] naming the first such key,
    before it validates anything and without changing the instance. *)
Theorem X6_unknown_key_is_rejected_first :
  forall rt self k,
    In k (Py.keys (_items self)) ->
    Py.mem k (_attributes self) = false ->
    exists pre k' post,
      Py.keys (_items self) = (pre ++ k' :: post)%list
      /\ Forall (fun x => Py.mem x (_attributes self) = true) pre
      /\ Py.mem k' (_attributes self) = false
      /\ Model.validate rt self
         = {| returned := Raise (ValidationError k'); self_after := self;
              attr_calls := [] |}.
Proof.
  intros rt self k I M. unfold Model.validate.
  destruct (Model.first_unknown _ _) as [k'|] eqn:FU.
  - destruct (first_unknown_Some _ _ FU) as (pre & post & E & P & N).
    exists pre, k', post. auto.
  - rewrite first_unknown_None in FU. rewrite (FU k I) in M. discriminate.
Qed.

Lemma X6_witness :
  In "colour" (Py.keys (_items Samples.stray_colour))
  /\ exists pre k' post,
       Py.keys (_items Samples.stray_colour) = (pre ++ k' :: post)%list
       /\ Forall (fun x => Py.mem x (_attributes Samples.stray_colour) = true) pre
       /\ Py.mem k' (_attributes Samples.stray_colour) = false
       /\ Model.validate SampleRuntime.rt Samples.stray_colour
          = {| returned := Raise (ValidationError k');
               self_after := Samples.stray_colour; attr_calls := [] |}.
Proof.
  split; [right; left; reflexivity|].
  exact (@X6_unknown_key_is_rejected_first SampleRuntime.rt Samples.stray_colour
           "colour" (or_intror (or_introl eq_refl)) eq_refl).
Defined.

(** X7.  A schema key that has no value and no default and whose type is
    not optional makes [validate] raise: it never returns a mapping. *)
Theorem X7_missing_required_key_fails :
  forall rt self key t,
    Py.unique_keys (_attributes self) = true ->
    Py.get key (_attributes self) = Some t ->
    Model.is_optional t = false ->
    Py.get key (_items self) = None ->
    Py.get key (_defaults self) = None ->
    exists e, returned (Model.validate rt self) = Raise e.
Proof.
  intros rt self key t U GT O GI GD.
  destruct (returned (Model.validate rt self)) as [m|e] eqn:R; [|eauto].
  exfalso. apply unique_keys_NoDup in U.
  destruct (validate_cases rt self R) as (_ & _ & m1 & R1 & _).
  destruct (reconcile_spec rt _ _ _ _ U R1 key) as [_ S].
  destruct (S t (In_get _ _ GT)) as [(x & x' & G & _)|(_ & _ & O' & _)];
    congruence.
Qed.

Lemma X7_witness :
  Py.get "age" (_items Samples.no_age) = None
  /\ exists e, returned (Model.validate SampleRuntime.rt Samples.no_age) = Raise e.
Proof.
  split; [reflexivity|].
  exact (@X7_missing_required_key_fails SampleRuntime.rt Samples.no_age "age"
           Samples.int_ eq_refl eq_refl eq_refl eq_refl eq_refl).
Defined.

(** X8.  The mapping [validate] returns has exactly the keys of the
    schema. *)
Theorem X8_returned_mapping_has_the_schema_keys :
  forall rt self m,
    returned (Model.validate rt self) = Ok m ->
    forall k, Py.mem k m = Py.mem k (_attributes self).
Proof.
  intros rt self m R k.
  destruct (validate_cases rt self R) as (FU & _ & m1 & R1 & Cases).
  rewrite first_unknown_None in FU.
  assert (K1 : In k (Py.keys m1) <-> In k (Py.keys (_attributes self))).
  { split.
    - intros I. destruct (reconcile_keys_from rt _ _ _ _ R1 k I) as [J|J]; [exact J|].
      apply mem_keys. now apply FU.
    - intros I. apply (reconcile_has_keys rt _ _ _ _ R1). now left. }
  assert (K : In k (Py.keys m) <-> In k (Py.keys (_attributes self))).
  { destruct Cases as [(_ & -> & _)|(d & _ & _ & C)]; [exact K1|].
    rewrite (chain_loop_keys _ _ _ _ _ C); [exact K1|auto]. }
  destruct (Py.mem k (_attributes self)) eqn:M.
  - apply mem_keys, K, mem_keys, M.
  - destruct (Py.mem k m) eqn:M'; [|reflexivity].
    apply mem_keys, K, mem_keys in M'. congruence.
Qed.

Lemma X8_witness :
  returned (Model.validate SampleRuntime.rt Samples.person_42)
  = Ok [("age", VInt 42); ("nick", VNone)]
  /\ forall k, Py.mem k [("age", VInt 42); ("nick", VNone)]
               = Py.mem k (_attributes Samples.person_42).
Proof.
  split; [reflexivity|].
  exact (@X8_returned_mapping_has_the_schema_keys SampleRuntime.rt
           Samples.person_42 [("age", VInt 42); ("nick", VNone)] eq_refl).
Defined.

(** X9.  After a [validate] that returns, each entry of the Item Store
    is an entry of the returned mapping: the store holds the coerced and
    chained values, and nothing the mapping lacks. *)
Theorem X9_item_store_within_returned_mapping :
  forall rt self m,
    returned (Model.validate rt self) = Ok m ->
    within (_items (self_after (Model.validate rt self))) m.
Proof.
  intros rt self m R.
  destruct (validate_cases rt self R) as (_ & _ & m1 & R1 & Cases).
  assert (W1 : within
                 (_items (self_after
                            (Model.reconcile rt (_attributes self) (_items self) self [])))
                 m1)
    by (apply reconcile_within; [intros k v G; exact G|exact R1]).
  destruct Cases as [(_ & -> & ->)|(d & _ & _ & C)]; [exact W1|].
  eapply chain_loop_within; [exact W1|exact C].
Qed.

Lemma X9_witness :
  returned (Model.validate SampleRuntime.rt Samples.person_42)
  = Ok [("age", VInt 42); ("nick", VNone)]
  /\ within (_items (self_after (Model.validate SampleRuntime.rt Samples.person_42)))
       [("age", VInt 42); ("nick", VNone)].
Proof.
  split; [reflexivity|].
  exact (@X9_item_store_within_returned_mapping SampleRuntime.rt
           Samples.person_42 [("age", VInt 42); ("nick", VNone)] eq_refl).
Defined.

(** X10.  Whatever it returns or raises, [validate] changes nothing of
    the instance but the Item Store: schema, Default Store, validator
    registry, plain attributes and ignored names are as before. *)
Theorem X10_validate_writes_the_item_store_only :
  forall rt self,
    let self' := self_after (Model.validate rt self) in
    _attributes self' = _attributes self
    /\ _defaults self' = _defaults self
    /\ _validators self' = _validators self
    /\ __dict__ self' = __dict__ self
    /\ _ignored_attrs self' = _ignored_attrs self.
Proof.
  intros rt self. unfold Model.validate.
  destruct (Model.first_unknown _ _); [simpl; tauto|].
  pose proof (reconcile_keeps rt (_attributes self) (_items self) self [])
    as (KD & KA & KV & KX & KI).
  cbv zeta in *.
  set (typed := Model.reconcile rt (_attributes self) (_items self) self []) in *.
  destruct (returned typed) as [m1|e]; [|tauto].
  destruct (_validators (self_after typed)) as [[|c d]|] eqn:V.
  - repeat split; congruence.
  - cbn [self_after].
    pose proof (chain_loop_frame (c :: d)
                  match Py.get None (c :: d) with Some l => l | None => [] end
                  m1 m1 (self_after typed)) as (CD & CA & CV & CX & CI).
    cbv zeta in *. rewrite CD, CA, CV, CX, CI. repeat split; congruence.
  - repeat split; congruence.
Qed.

(** ** [validate]: the order of the work *)

(** X11.  For a key that has a value and a validator chain of its own,
    a [validate] that returns has coerced the value by the key's type,
    then run the wildcard handlers in registration order, then the key's
    handlers in registration order, each on the result of the one before,
    and has put the final value in the mapping and in the Item Store. *)
Theorem X11_coercion_then_wildcard_then_key_chain :
  forall rt self d key t v hs m,
    Py.unique_keys (_attributes self) = true ->
    Py.unique_keys (_items self) = true ->
    _validators self = Some d ->
    Py.get (Some key) d = Some hs ->
    Py.get key (_attributes self) = Some t ->
    Py.get key (_items self) = Some v ->
    returned (Model.validate rt self) = Ok m ->
    exists v1 v3,
      _validate_attr rt t v key = Ok v1
      /\ Model.run_handlers (all_gobbler d ++ hs) v1 key = Ok v3
      /\ Py.get key m = Some v3
      /\ Py.get key (_items (self_after (Model.validate rt self))) = Some v3.
Proof.
  intros rt self d key t v hs m UA UI V G GT GI R.
  apply unique_keys_NoDup in UA. apply unique_keys_NoDup in UI.
  destruct (validate_cases rt self R) as (_ & _ & m1 & R1 & Cases).
  destruct Cases as [(NV & _)|(d' & V' & _ & C)].
  { unfold no_validators in NV. rewrite V in NV.
    destruct d; [discriminate G|discriminate NV]. }
  rewrite V in V'. injection V' as <-.
  destruct (reconcile_spec rt _ _ _ _ UA R1 key) as [_ S].
  destruct (S t (In_get _ _ GT)) as [(x & v1 & GX & VA & M1 & _)|(GN & _)];
    [|congruence].
  rewrite GI in GX. injection GX as <-.
  pose proof (reconcile_NoDup rt _ _ _ _ UI R1) as N1.
  destruct (chain_loop_value _ _ _ _ _ N1 C key v1 (In_get _ _ M1))
    as (v3 & B & Jm & Ji).
  exists v1, v3. repeat split; auto.
  rewrite run_handlers_app. unfold Model.call_validators in B.
  now rewrite G in B.
Qed.

Lemma X11_witness :
  returned (Model.validate SampleRuntime.rt Samples.global_field)
  = Ok [("name", VStr "x-global-field")]
  /\ exists v1 v3,
       _validate_attr SampleRuntime.rt Samples.str_ (VStr "x") "name" = Ok v1
       /\ Model.run_handlers
            (all_gobbler [(None, [Samples.append_suffix "-global"]);
                          (Some "name", [Samples.append_suffix "-field"])]
             ++ [Samples.append_suffix "-field"]) v1 "name" = Ok v3
       /\ Py.get "name" [("name", VStr "x-global-field")] = Some v3
       /\ Py.get "name"
            (_items (self_after
                       (Model.validate SampleRuntime.rt Samples.global_field)))
          = Some v3.
Proof.
  split; [reflexivity|].
  exact (@X11_coercion_then_wildcard_then_key_chain SampleRuntime.rt
           Samples.global_field
           [(None, [Samples.append_suffix "-global"]);
            (Some "name", [Samples.append_suffix "-field"])]
           "name" Samples.str_ (VStr "x") [Samples.append_suffix "-field"]
           [("name", VStr "x-global-field")]
           eq_refl eq_refl eq_refl eq_refl eq_refl eq_refl eq_refl).
Defined.

Lemma subsequence_nil_l (A : Type) (l : list A) : subsequence [] l.
Proof. induction l; constructor; auto. Qed.

Lemma reconcile_calls_order rt sch : forall A self calls,
  exists l,
    attr_calls (Model.reconcile rt sch A self calls) = (calls ++ l)%list
    /\ subsequence l (Py.keys sch).
Proof.
  induction sch as [|[key t] rest IH]; intros A self calls.
  - exists []. simpl. rewrite app_nil_r. split; [reflexivity|constructor].
  - rewrite reconcile_cons.
    assert (Called : forall A' s',
              exists l,
                attr_calls (Model.reconcile rt rest A' s' (calls ++ [key])%list)
                = (calls ++ l)%list
                /\ subsequence l (Py.keys (V:=ty) ((key, t) :: rest))).
    { intros A' s'. destruct (IH A' s' (calls ++ [key])%list) as (l & E & S).
      exists (key :: l). rewrite E, <- app_assoc. split; [reflexivity|].
      now constructor. }
    assert (Stop : exists l,
              (calls ++ [key])%list = (calls ++ l)%list
              /\ subsequence l (Py.keys (V:=ty) ((key, t) :: rest))).
    { exists [key]. split; [reflexivity|]. simpl. apply subsequence_take.
      apply subsequence_nil_l. }
    assert (Skip : exists l,
              calls = (calls ++ l)%list
              /\ subsequence l (Py.keys (V:=ty) ((key, t) :: rest))).
    { exists []. rewrite app_nil_r. split; [reflexivity|].
      apply subsequence_nil_l. }
    destruct (Py.get key A) as [item|].
    + destruct (_validate_attr rt t item key); [apply Called|exact Stop].
    + destruct (Py.get key (_defaults self)) as [d|].
      * destruct (_validate_attr rt (Obj d) d key); [apply Called|exact Stop].
      * destruct (Model.is_optional t); [|exact Skip].
        destruct (IH (Py.set key VNone A) self calls) as (l & E & S).
        exists l. split; [exact E|]. now constructor.
Qed.

(** X12.  [validate] calls [_validate_attr] for the keys of the schema in
    the order of the schema: the keys it was called for, in call order,
    are the schema's keys with some left out. *)
Theorem X12_fields_are_validated_in_schema_order :
  forall rt self,
    subsequence (attr_calls (Model.validate rt self))
      (Py.keys (_attributes self)).
Proof.
  intros rt self.
  assert (T : subsequence
                (attr_calls (Model.reconcile rt (_attributes self) (_items self)
                               self []))
                (Py.keys (_attributes self))).
  { destruct (reconcile_calls_order rt (_attributes self) (_items self) self [])
      as (l & E & S). rewrite E. exact S. }
  unfold Model.validate.
  destruct (Model.first_unknown _ _); [apply subsequence_nil_l|].
  destruct (returned _); [|exact T].
  destruct (_validators _) as [[|c d]|]; exact T.
Qed.

(** ** The validator registry *)

Lemma registry_fold (h : value -> string -> res value) k ks :
  forall d : validator_registry,
    NoDup ks ->
    let f := fun (vs : validator_registry) k0 =>
               match Py.get k0 vs with
               | Some l => Py.set k0 (l ++ [h])%list vs
               | None => Py.set k0 [h] vs
               end in
    (In k ks ->
     Py.get k (fold_left f ks d)
     = Some (match Py.get k d with Some l => l | None => [] end ++ [h])%list)
    /\ (~ In k ks -> Py.get k (fold_left f ks d) = Py.get k d).
Proof.
  induction ks as [|k0 r IH]; intros d N f; simpl.
  - split; [intros []|reflexivity].
  - apply NoDup_cons_iff in N as [N1 N2].
    assert (F : f d k0
                = Py.set k0
                    (match Py.get k0 d with Some l => l | None => [] end ++ [h])%list
                    d)
      by (unfold f; destruct (Py.get k0 d); reflexivity).
    destruct (IH (f d k0) N2) as [I1 I2]. fold f in I1, I2.
    destruct (keqb_dec k0 k) as [->|D].
    + split; [intros _|intros X; exfalso; auto].
      rewrite (I2 N1), F. apply get_set_same.
    + assert (G : Py.get k (f d k0) = Py.get k d)
        by (rewrite F; now apply get_set_other).
      split.
      * intros [E|I]; [contradiction|]. rewrite (I1 I), G. reflexivity.
      * intros X. rewrite I2 by auto. exact G.
Qed.

(** X13.  [add_validator] appends the handler, in its two-argument form,
    to the chain of each key it is given (the wildcard for [None]) and
    leaves every other chain as it was: a chain lists its handlers in
    registration order. *)
Theorem X13_add_validator_appends_to_the_chain :
  forall self key_name h k,
    NoDup (registered_keys key_name) ->
    let d := match _validators self with Some v => v | None => [] end in
    exists d',
      _validators (Model.add_validator self key_name h) = Some d'
      /\ (In k (registered_keys key_name) ->
          Py.get k d'
          = Some (match Py.get k d with Some l => l | None => [] end
                  ++ [two_params h])%list)
      /\ (~ In k (registered_keys key_name) -> Py.get k d' = Py.get k d).
Proof.
  intros self key_name h k N d.
  eexists. split; [reflexivity|].
  exact (registry_fold (two_params h) k d N).
Qed.

Lemma X13_witness :
  NoDup (registered_keys (one_key "name"))
  /\ exists d',
       _validators
         (Model.add_validator Samples.audited_x (one_key "name")
            (Handler1 (fun v => Ok v)))
       = Some d'
       /\ (In (Some "name") (registered_keys (one_key "name")) ->
           Py.get (Some "name") d'
           = Some ([] ++ [two_params (Handler1 (fun v => Ok v))])%list)
       /\ (~ In (Some "name") (registered_keys (one_key "name")) ->
           Py.get (Some "name") d'
           = Py.get (Some "name") [(None, [fun v (_ : string) => Ok v])]).
Proof.
  assert (N : NoDup (registered_keys (one_key "name")))
    by (constructor; [intros []|constructor]).
  split; [exact N|].
  exact (@X13_add_validator_appends_to_the_chain Samples.audited_x
           (one_key "name") (Handler1 (fun v => Ok v)) (Some "name") N).
Defined.

(** ** Items, defaults and attributes *)

Lemma get_del_other (V : Type) (k k' : string) (d : sdict V) :
  k <> k' -> Py.get k' (Py.del k d) = Py.get k' d.
Proof.
  intros N. induction d as [|[k0 v0] r IH]; simpl; [reflexivity|].
  destruct (Py.keqb k k0) eqn:E; simpl.
  - apply Py.keqb_eq in E. subst k0. rewrite keqb_neq; auto.
  - destruct (Py.keqb k' k0); auto.
Qed.

(** X14.  [self[key] = v] followed by [self[key]] gives [v]; the key is
    then contained and no longer at its default, and every other key
    reads as before. *)
Theorem X14_setitem_then_getitem :
  forall self key v,
    Py.startswith key "_" = false ->
    exists self',
      Model.__setitem__ self key v = Ok self'
      /\ Model.__getitem__ self' key = Ok v
      /\ Model.__contains__ self' key = true
      /\ Model.is_default self' key = false
      /\ forall k, k <> key -> Model.__getitem__ self' k = Model.__getitem__ self k.
Proof.
  intros self key v P. unfold Model.__setitem__. rewrite P.
  eexists. split; [reflexivity|].
  unfold Model.__getitem__, Model.__contains__, Model.is_default, Py.mem. simpl.
  rewrite get_set_same. repeat split.
  intros k D. rewrite get_set_other by congruence. reflexivity.
Qed.

Lemma X14_witness :
  Py.startswith "age" "_" = false
  /\ exists self',
       Model.__setitem__ Samples.no_age "age" (VInt 7) = Ok self'
       /\ Model.__getitem__ self' "age" = Ok (VInt 7)
       /\ Model.__contains__ self' "age" = true
       /\ Model.is_default self' "age" = false
       /\ forall k, k <> "age" ->
                    Model.__getitem__ self' k = Model.__getitem__ Samples.no_age k.
Proof.
  split; [reflexivity|].
  exact (@X14_setitem_then_getitem Samples.no_age "age" (VInt 7) eq_refl).
Defined.

(** X15.  [del self[key]] for a key of the Item Store removes it: the
    key is no longer contained, reading it gives its default if it has
    one and raises [KeyError] otherwise, and every other key reads as
    before. *)
Theorem X15_delitem_uncovers_the_default :
  forall self key,
    Py.unique_keys (_items self) = true ->
    Model.__contains__ self key = true ->
    exists self',
      Model.__delitem__ self key = Ok self'
      /\ Model.__contains__ self' key = false
      /\ Model.is_default self' key = Py.mem key (_defaults self)
      /\ Model.__getitem__ self' key
         = match Py.get key (_defaults self) with
           | Some d => Ok d
           | None => Raise KeyError
           end
      /\ forall k, k <> key -> Model.__getitem__ self' k = Model.__getitem__ self k.
Proof.
  intros self key U C. apply unique_keys_NoDup in U.
  unfold Model.__delitem__. unfold Model.__contains__ in C. rewrite C.
  eexists. split; [reflexivity|].
  unfold Model.__getitem__, Model.__contains__, Model.is_default, Py.mem. simpl.
  rewrite get_del_unique by exact U. repeat split.
  intros k D. rewrite get_del_other by congruence. reflexivity.
Qed.

Lemma X15_witness :
  Model.__contains__ Samples.person_42 "age" = true
  /\ exists self',
       Model.__delitem__ Samples.person_42 "age" = Ok self'
       /\ Model.__contains__ self' "age" = false
       /\ Model.is_default self' "age" = Py.mem "age" (_defaults Samples.person_42)
       /\ Model.__getitem__ self' "age"
          = match Py.get "age" (_defaults Samples.person_42) with
            | Some d => Ok d
            | None => Raise KeyError
            end
       /\ forall k, k <> "age" ->
                    Model.__getitem__ self' k = Model.__getitem__ Samples.person_42 k.
Proof.
  split; [reflexivity|].
  exact (@X15_delitem_uncovers_the_default Samples.person_42 "age" eq_refl eq_refl).
Defined.

Lemma str_in_last key l : Py.str_in key (l ++ [key]) = true.
Proof.
  unfold Py.str_in. rewrite existsb_app. simpl.
  now rewrite String.eqb_refl, orb_true_r.
Qed.

Lemma reconcile_with_dict rt x sch : forall A self calls,
  Model.reconcile rt sch A (with_dict x self) calls
  = {| returned := returned (Model.reconcile rt sch A self calls);
       self_after := with_dict x (self_after (Model.reconcile rt sch A self calls));
       attr_calls := attr_calls (Model.reconcile rt sch A self calls) |}.
Proof.
  induction sch as [|[key t] rest IH]; intros A self calls; [reflexivity|].
  rewrite !reconcile_cons. cbn [_defaults _items with_dict].
  destruct (Py.get key A) as [item|].
  - destruct (_validate_attr rt t item key); [|reflexivity].
    apply (IH _ (with_items _ self)).
  - destruct (Py.get key (_defaults self)) as [d|]; [reflexivity|].
    destruct (Model.is_optional t); [apply IH|reflexivity].
Qed.

Lemma chain_loop_with_dict x d g entries : forall A self,
  Model.chain_loop d g entries A (with_dict x self)
  = (fst (Model.chain_loop d g entries A self),
     with_dict x (snd (Model.chain_loop d g entries A self))).
Proof.
  induction entries as [|[k0 v0] rest IH]; intros A self; [reflexivity|].
  simpl. destruct (bind _ _); [|reflexivity].
  apply (IH _ (with_items _ self)).
Qed.

(** Plain attributes are invisible to [validate]. *)
Lemma validate_with_dict rt x self :
  returned (Model.validate rt (with_dict x self)) = returned (Model.validate rt self)
  /\ attr_calls (Model.validate rt (with_dict x self))
     = attr_calls (Model.validate rt self).
Proof.
  unfold Model.validate. cbn [_items _attributes with_dict].
  destruct (Model.first_unknown _ _); [split; reflexivity|].
  rewrite reconcile_with_dict. cbv zeta.
  set (typed := Model.reconcile rt (_attributes self) (_items self) self []).
  cbn [returned self_after attr_calls].
  destruct (returned typed) as [m|e] eqn:R1;
    [|cbn [returned attr_calls]; rewrite R1; split; reflexivity].
  cbn [_validators with_dict].
  destruct (_validators (self_after typed)) as [[|c d]|];
    try (cbn [returned attr_calls]; rewrite R1; split; reflexivity).
  rewrite chain_loop_with_dict. split; reflexivity.
Qed.

(** X16.  Once a public key is ignored, assigning to it as an attribute
    stores a plain attribute: reading the attribute gives the value
    back, the Item Store is untouched, and [validate] returns or raises
    exactly what it would without the assignment. *)
Theorem X16_attribute_set_after_ignoring_is_plain :
  forall rt cls self key v,
    Py.startswith key "_" = false ->
    let ignored := Model.ignore_attribute self key in
    let self' := Model.__setattr__ ignored key v in
    Model.getattr cls self' key = Ok v
    /\ _items self' = _items ignored
    /\ returned (Model.validate rt self') = returned (Model.validate rt ignored)
    /\ attr_calls (Model.validate rt self') = attr_calls (Model.validate rt ignored).
Proof.
  intros rt cls self key v _ ignored self'.
  assert (E : self' = with_dict (Py.set key v (__dict__ ignored)) ignored).
  { unfold self', Model.__setattr__.
    replace (_ignored_attrs ignored)
      with (Some ((match _ignored_attrs self with Some l => l | None => [] end)
                  ++ [key])%list) by reflexivity.
    now rewrite str_in_last, orb_true_r. }
  rewrite E. split; [|split; [reflexivity|apply validate_with_dict]].
  unfold Model.getattr, Model.object_getattribute. cbn [__dict__ with_dict].
  now rewrite get_set_same.
Qed.

Lemma X16_witness :
  Py.startswith "age" "_" = false
  /\ let ignored := Model.ignore_attribute Samples.person_42 "age" in
     let self' := Model.__setattr__ ignored "age" (VInt 7) in
     Model.getattr Samples.Person self' "age" = Ok (VInt 7)
     /\ _items self' = _items ignored
     /\ returned (Model.validate SampleRuntime.rt self')
        = returned (Model.validate SampleRuntime.rt ignored)
     /\ attr_calls (Model.validate SampleRuntime.rt self')
        = attr_calls (Model.validate SampleRuntime.rt ignored).
Proof.
  split; [reflexivity|].
  exact (@X16_attribute_set_after_ignoring_is_plain SampleRuntime.rt
           Samples.Person Samples.person_42 "age" (VInt 7) eq_refl).
Defined.

(** X17.  [__eq__] answers whether the two objects have the same type and
    every item of [self] has an equal item in [other]; items that only
    [other] has play no part. *)
Theorem X17_eq_looks_at_the_items_of_self :
  forall ne types_differ self other,
    Model.__eq__ ne types_differ self other = true <->
    types_differ = false
    /\ forall k v, In (k, v) (_items self) ->
         exists v', Py.get k (_items other) = Some v' /\ ne v v' = false.
Proof.
  intros ne types_differ self other. unfold Model.__eq__.
  destruct types_differ; [split; [discriminate|intros [? _]; discriminate]|].
  generalize (_items self) as entries. generalize (_items other) as O.
  intros O entries. induction entries as [|[k0 v0] r IH]; simpl.
  - split; [intros _; split; [reflexivity|intros k v []]|reflexivity].
  - destruct (Py.get k0 O) as [v'|] eqn:G.
    + destruct (ne v0 v') eqn:N.
      * split; [discriminate|]. intros [_ H].
        destruct (H k0 v0 (or_introl eq_refl)) as (x & Gx & Nx). congruence.
      * rewrite IH. split; intros [T H]; (split; [exact T|]).
        -- intros k v [E|I]; [injection E as <- <-; eauto|auto].
        -- intros k v I. apply H. now right.
    + split; [discriminate|]. intros [_ H].
      destruct (H k0 v0 (or_introl eq_refl)) as (x & Gx & _). congruence.
Qed.

(** So equality is not symmetric: a model equals one that has an item
    more, and not the other way round. *)
Example eq_is_not_symmetric ne :
  ne (VInt 1) (VInt 1) = false ->
  let small := mk_instance [] [] [("a", VInt 1)] [] None None in
  let large := mk_instance [] [] [("a", VInt 1); ("b", VInt 2)] [] None None in
  Model.__eq__ ne false small large = true
  /\ Model.__eq__ ne false large small = false.
Proof. intros N. simpl. now rewrite N. Qed.

(** ** Construction *)

Lemma attributes_loop_ok cls pending : forall self,
  __dict__ self = [] ->
  forallb (fun k => negb (Py.startswith k "_")) pending = true ->
  Model.attributes_loop cls (List.length (_attributes self)) pending self = Ok self.
Proof.
  induction pending as [|k r IH]; intros self D F; rewrite attributes_loop_eq;
    rewrite Nat.eqb_refl; simpl; [reflexivity|].
  simpl in F. apply andb_prop in F as [F1 F2].
  apply negb_true_iff in F1. rewrite F1.
  unfold Model.object_delattr, Py.mem. rewrite D. simpl.
  destruct (Model.object_getattribute cls self k); now apply IH.
Qed.

Lemma attributes_loop_raises cls post : forall pre self,
  __dict__ self = [] ->
  _attributes self = (pre ++ post)%list ->
  existsb (fun k => Py.startswith k "_") (Py.keys post) = true ->
  Model.attributes_loop cls (List.length (pre ++ post)%list) (Py.keys post) self
  = Raise RuntimeError.
Proof.
  induction post as [|[k t] post IH]; intros pre self D A E; [discriminate|].
  rewrite attributes_loop_eq, A, Nat.eqb_refl. simpl.
  destruct (Py.startswith k "_") eqn:P.
  - rewrite attributes_loop_eq. cbn [_attributes with_attributes].
    assert (L : S (List.length (Py.del k (pre ++ (k, t) :: post)%list))
                = List.length (pre ++ (k, t) :: post)%list).
    { apply del_length. unfold Py.keys. rewrite map_app. apply in_or_app.
      right. now left. }
    destruct (Nat.eqb_spec (List.length (Py.del k (pre ++ (k, t) :: post)%list))
                (List.length (pre ++ (k, t) :: post)%list)) as [Q|Q]; [lia|reflexivity].
  - simpl in E. rewrite P in E. simpl in E.
    unfold Model.object_delattr, Py.mem. rewrite D. simpl.
    assert (R : Model.attributes_loop cls (List.length (pre ++ (k, t) :: post)%list)
                  (Py.keys post) self = Raise RuntimeError).
    { replace (pre ++ (k, t) :: post)%list with ((pre ++ [(k, t)]) ++ post)%list
        by (rewrite <- app_assoc; reflexivity).
      apply IH; [exact D| |exact E].
      rewrite A, <- app_assoc. reflexivity. }
    destruct (Model.object_getattribute cls self k); exact R.
Qed.

(** Registering the decorated methods changes [_validators] and nothing
    else. *)
Lemma decorated_frame l : forall self,
  let self' :=
    fold_left (fun s d => Model.add_validator s (fst d) (snd d)) l self in
  self' = with_validators (_validators self') self.
Proof.
  induction l as [|d l IH]; intros self; simpl; [now destruct self|].
  rewrite (IH (Model.add_validator self (fst d) (snd d))) at 1. reflexivity.
Qed.

Lemma not_all_public l :
  forallb (fun k => negb (Py.startswith k "_")) l = false ->
  existsb (fun k => Py.startswith k "_") l = true.
Proof.
  induction l as [|a l IH]; simpl; [discriminate|].
  destruct (Py.startswith a "_"); simpl; auto.
Qed.

Lemma Model_init_eq cls kwargs :
  let annotations := match __annotations__ cls with Some a => a | None => [] end in
  let public := fun k => negb (Py.startswith k "_") in
  Model.__init__ cls kwargs
  = if (forallb public (Py.keys kwargs) && forallb public (Py.keys annotations))%bool
    then Ok (with_attributes annotations
               (fold_left (fun s d => Model.add_validator s (fst d) (snd d))
                  (decorated cls) (mk_instance [] [] kwargs [] None None)))
    else Raise RuntimeError.
Proof.
  intros annotations public. unfold Model.__init__.
  destruct (forallb public (Py.keys kwargs)) eqn:FK.
  - rewrite drop_private_loop_ok by exact FK. simpl bind. cbv zeta.
    fold annotations.
    set (s := fold_left _ (decorated cls) _).
    assert (D : __dict__ (with_attributes annotations s) = [])
      by (unfold s; rewrite decorated_frame; reflexivity).
    destruct (forallb public (Py.keys annotations)) eqn:FA; simpl andb; cbv iota.
    + exact (@attributes_loop_ok cls (Py.keys annotations)
               (with_attributes annotations s) D FA).
    + apply not_all_public in FA.
      exact (@attributes_loop_raises cls annotations []
               (with_attributes annotations s) D eq_refl FA).
  - apply not_all_public in FK.
    pose proof (@drop_private_loop_raises kwargs [] FK) as R. simpl in R.
    now rewrite R.
Qed.

(** X18.  What the constructor does, in full: if no keyword argument and
    no annotated name starts with an underscore, the new instance has
    the keyword arguments as its Item Store, the class's annotations as
    its schema, the decorated methods registered in order, and nothing
    else; otherwise the constructor raises [RuntimeError]. *)
Theorem X18_construction_succeeds_iff_no_private_name :
  forall cls kwargs,
    let annotations := match __annotations__ cls with Some a => a | None => [] end in
    let public := fun k => negb (Py.startswith k "_") in
    Model.__init__ cls kwargs
    = if (forallb public (Py.keys kwargs) && forallb public (Py.keys annotations))%bool
      then Ok (with_attributes annotations
                 (fold_left (fun s d => Model.add_validator s (fst d) (snd d))
                    (decorated cls) (mk_instance [] [] kwargs [] None None)))
      else Raise RuntimeError.
Proof. exact Model_init_eq. Qed.

Lemma del_absent (V : Type) (k : string) (d : sdict V) :
  Py.get k d = None -> Py.del k d = d.
Proof.
  induction d as [|[k0 v0] r IH]; simpl; [reflexivity|].
  destruct (Py.keqb k k0); [discriminate|]. intros G. now rewrite IH.
Qed.

Lemma In_keys_del (V : Type) (k k' : string) (d : sdict V) :
  In k' (Py.keys (Py.del k d)) -> In k' (Py.keys d).
Proof.
  induction d as [|[k0 v0] r IH]; simpl; [tauto|].
  destruct (Py.keqb k k0); simpl; tauto.
Qed.

Lemma NoDup_keys_del (V : Type) (k : string) (d : sdict V) :
  NoDup (Py.keys d) -> NoDup (Py.keys (Py.del k d)).
Proof.
  induction d as [|[k0 v0] r IH]; simpl; [auto|].
  intros N. apply NoDup_cons_iff in N as [N1 N2].
  destruct (Py.keqb k k0); [exact N2|].
  simpl. constructor; [|auto].
  intros I. apply N1. eapply In_keys_del. exact I.
Qed.

(** [ignore_attribute] for a public key that is not yet ignored: the key
    leaves both stores and joins the ignored list; the instance's own
    attributes are as before. *)
Lemma ignore_attribute_public self key :
  Py.startswith key "_" = false ->
  Py.str_in key (match _ignored_attrs self with Some l => l | None => [] end) = false ->
  Model.ignore_attribute self key
  = mk_instance (__dict__ self)
      (if Py.mem key (_defaults self)
       then Py.del key (_defaults self) else _defaults self)
      (Py.del key (_items self)) (_attributes self) (_validators self)
      (Some ((match _ignored_attrs self with Some l => l | None => [] end)
             ++ [key])%list).
Proof.
  intros P NI. unfold Model.ignore_attribute. cbv zeta.
  set (s1 := with_ignored_attrs _ self).
  set (s2 := if Py.mem key (_defaults s1) then _ else s1).
  assert (E2 : s2 = with_defaults
                      (if Py.mem key (_defaults self)
                       then Py.del key (_defaults self) else _defaults self) s1).
  { unfold s2. cbn [_defaults s1 with_ignored_attrs].
    destruct (Py.mem key (_defaults self)); [reflexivity|].
    unfold s1. now destruct self. }
  rewrite E2. cbn [_items with_defaults s1 with_ignored_attrs].
  unfold s1.
  destruct (Py.get key (_items self)) as [v|] eqn:G.
  - unfold Model.__setattr__.
    cbn [_ignored_attrs with_defaults with_ignored_attrs].
    rewrite P, NI. simpl orb. cbv iota.
    cbn. rewrite (set_get_id _ _ G). reflexivity.
  - cbn. now rewrite (@del_absent _ key (_items self) G).
Qed.

(** X19.  A [Record] built from keyword arguments never keeps
    [table_name] or [connection_name]: both are gone from the Item Store
    and are not attributes of the instance either; the other arguments
    are kept, and the two names are ignored from then on. *)
Theorem X19_record_drops_its_table_and_connection_names :
  forall cls kwargs self,
    Py.unique_keys kwargs = true ->
    record.__init__ cls kwargs = Ok self ->
    _items self = Py.del "connection_name" (Py.del "table_name" kwargs)
    /\ __dict__ self = []
    /\ _ignored_attrs self = Some ["table_name"; "connection_name"]
    /\ Py.get "table_name" (_items self) = None
    /\ Py.get "connection_name" (_items self) = None
    /\ forall k, k <> "table_name" -> k <> "connection_name" ->
         Py.get k (_items self) = Py.get k kwargs.
Proof.
  intros cls kwargs self U R. apply unique_keys_NoDup in U.
  unfold record.__init__ in R. rewrite Model_init_eq in R.
  destruct (_ && _)%bool; [|discriminate]. simpl bind in R.
  rewrite decorated_frame in R.
  cbn [with_validators with_attributes __dict__ _defaults _items _attributes
       _validators _ignored_attrs] in R.
  rewrite ignore_attribute_public in R by reflexivity.
  rewrite ignore_attribute_public in R by reflexivity.
  injection R as <-.
  cbn [__dict__ _defaults _items _attributes _validators _ignored_attrs].
  split; [reflexivity|]. split; [reflexivity|]. split; [reflexivity|].
  split; [|split].
  - rewrite get_del_other by discriminate. now apply get_del_unique.
  - apply get_del_unique. now apply NoDup_keys_del.
  - intros k N1 N2. rewrite !get_del_other by congruence. reflexivity.
Qed.

Lemma X19_witness :
  exists self,
    record.__init__ Samples.Plain
      [("table_name", VStr "foo"); ("age", VInt 3)] = Ok self
    /\ _items self
       = Py.del "connection_name"
           (Py.del "table_name" [("table_name", VStr "foo"); ("age", VInt 3)])
    /\ __dict__ self = []
    /\ _ignored_attrs self = Some ["table_name"; "connection_name"]
    /\ Py.get "table_name" (_items self) = None
    /\ Py.get "connection_name" (_items self) = None
    /\ forall k, k <> "table_name" -> k <> "connection_name" ->
         Py.get k (_items self)
         = Py.get k [("table_name", VStr "foo"); ("age", VInt 3)].
Proof.
  eexists. split; [reflexivity|].
  exact (@X19_record_drops_its_table_and_connection_names Samples.Plain
           [("table_name", VStr "foo"); ("age", VInt 3)] _ eq_refl eq_refl).
Defined.

(** ** The order in which initializers are loaded *)

Lemma order_loop_filter l : forall a b c,
  run.order_loop l a b c
  = ((a ++ filter (fun p => Py.contains "logger" p) l)%list,
     (b ++ filter (fun p => negb (Py.contains "logger" p) && Py.contains "loop" p)%bool
             l)%list,
     (c ++ filter (fun p => negb (Py.contains "logger" p)
                            && negb (Py.contains "loop" p))%bool l)%list).
Proof.
  induction l as [|p l IH]; intros a b c; simpl.
  - now rewrite !app_nil_r.
  - destruct (Py.contains "logger" p); simpl.
    + rewrite IH, <- app_assoc. reflexivity.
    + destruct (Py.contains "loop" p); simpl; rewrite IH, <- app_assoc; reflexivity.
Qed.

Lemma insert_sorted_perm x l : Permutation (Py.insert_sorted x l) (x :: l).
Proof.
  induction l as [|y r IH]; simpl; [reflexivity|].
  destruct (String.leb x y); [reflexivity|].
  rewrite IH. apply perm_swap.
Qed.

Lemma sort_perm l : Permutation (Py.sort l) l.
Proof.
  induction l as [|x l IH]; simpl; [reflexivity|].
  rewrite insert_sorted_perm. now constructor.
Qed.

Lemma insert_sorted_Sorted x l :
  Sorted (fun a b => String.leb a b = true) l ->
  Sorted (fun a b => String.leb a b = true) (Py.insert_sorted x l).
Proof.
  induction l as [|y r IH]; intros S; simpl.
  - repeat constructor.
  - destruct (String.leb x y) eqn:E.
    + constructor; [exact S|]. now constructor.
    + inversion S as [|? ? S' H]; subst.
      constructor; [now apply IH|].
      assert (Y : String.leb y x = true)
        by (destruct (String.leb_total x y); congruence).
      destruct r as [|z r]; simpl.
      * now constructor.
      * destruct (String.leb x z); constructor; [exact Y|].
        now inversion H.
Qed.

Lemma sort_Sorted l : Sorted (fun a b => String.leb a b = true) (Py.sort l).
Proof.
  induction l as [|x l IH]; simpl; [constructor|].
  now apply insert_sorted_Sorted.
Qed.

Lemma three_way_perm (p1 p2 : string -> bool) l :
  Permutation
    (filter p1 l
     ++ filter (fun p => negb (p1 p) && p2 p)%bool l
     ++ filter (fun p => negb (p1 p) && negb (p2 p))%bool l)%list
    l.
Proof.
  induction l as [|p l IH]; simpl; [reflexivity|].
  destruct (p1 p); simpl.
  - now constructor.
  - destruct (p2 p); simpl.
    + rewrite <- Permutation_middle. now constructor.
    + rewrite app_assoc, <- Permutation_middle, <- app_assoc. now constructor.
Qed.

(** X20.  [order_filepaths] reorders: its result has exactly the paths it
    was given, each as many times as it was given. *)
Theorem X20_order_filepaths_is_a_permutation :
  forall l, Permutation (run.order_filepaths l) l.
Proof.
  intros l. unfold run.order_filepaths. rewrite order_loop_filter. simpl.
  rewrite !sort_perm. apply three_way_perm.
Qed.

(** X21.  The result of [order_filepaths] is three runs, each in
    ascending order: the paths that contain "logger", then those that
    contain "loop" and not "logger", then the others. *)
Theorem X21_order_filepaths_groups_then_sorts :
  forall l,
    exists a b c,
      run.order_filepaths l = (a ++ b ++ c)%list
      /\ Forall (fun p => Py.contains "logger" p = true) a
      /\ Forall (fun p => Py.contains "logger" p = false
                          /\ Py.contains "loop" p = true) b
      /\ Forall (fun p => Py.contains "logger" p = false
                          /\ Py.contains "loop" p = false) c
      /\ Sorted (fun x y => String.leb x y = true) a
      /\ Sorted (fun x y => String.leb x y = true) b
      /\ Sorted (fun x y => String.leb x y = true) c.
Proof.
  intros l. unfold run.order_filepaths. rewrite order_loop_filter. simpl.
  do 3 eexists. split; [reflexivity|].
  repeat split; try apply sort_Sorted.
  - eapply Permutation_Forall; [symmetry; apply sort_perm|].
    apply Forall_forall. intros p I. apply filter_In in I. tauto.
  - eapply Permutation_Forall; [symmetry; apply sort_perm|].
    apply Forall_forall. intros p I. apply filter_In in I as [_ I].
    apply andb_prop in I as [I1 I2]. apply negb_true_iff in I1. tauto.
  - eapply Permutation_Forall; [symmetry; apply sort_perm|].
    apply Forall_forall. intros p I. apply filter_In in I as [_ I].
    apply andb_prop in I as [I1 I2].
    apply negb_true_iff in I1. apply negb_true_iff in I2. tauto.
Qed.

(** A path with both words is loaded with the loggers, and the whole
    list need not be in order. *)
Example order_filepaths_sample :
  run.order_filepaths ["b.py"; "loop.py"; "a.py"; "logger_loop.py"; "logger.py"]
  = ["logger.py"; "logger_loop.py"; "loop.py"; "a.py"; "b.py"].
Proof. reflexivity. Qed.

(** ** The request context *)

(** X22.  A context keeps the [close] methods of the iterators that
    register with it, in the order they registered; once
    [dont_autokill_iterators] has been called it keeps none, whatever
    registers afterwards. *)
Theorem X22_context_collects_closers_until_told_not_to :
  forall (F L : Type) (loop : L) (ctx : context.Context F L) (closers : list F),
    context._autoclose_records
      (fold_left (fun c close => context._rainbows_autoclose close c) closers
         (context.__init__ F loop))
    = Some closers
    /\ fold_left (fun c close => context._rainbows_autoclose close c) closers
         (context.dont_autokill_iterators ctx)
       = context.dont_autokill_iterators ctx.
Proof.
  intros F L loop ctx closers. split.
  - assert (G : forall done (c : context.Context F L),
               context._autoclose_records c = Some done ->
               context._autoclose_records
                 (fold_left (fun c close => context._rainbows_autoclose close c)
                    closers c)
               = Some (done ++ closers)%list).
    { induction closers as [|x r IH]; intros done c E; simpl.
      - now rewrite app_nil_r.
      - rewrite (IH (done ++ [x])%list).
        + now rewrite <- app_assoc.
        + unfold context._rainbows_autoclose, context._autoclose_record.
          now rewrite E. }
    exact (G [] (context.__init__ F loop) eq_refl).
  - induction closers as [|x r IH]; simpl; [reflexivity|exact IH].
Qed.

(** ** Records and their table name *)





(** The name made from [__name__] when the instance has been given one:
    snake case, lower case, plural. *)
Example table_name_from_name str_of :
  let named n :=
    Model.__setattr__ (mk_instance [] [] [] [] None None) "__name__" (VStr n) in
  record.get_table_name str_of Samples.Plain (named "UserProfile") = Ok "user_profiles"
  /\ record.get_table_name str_of Samples.Plain (named "Address") = Ok "addresses"
  /\ record.get_table_name str_of Samples.Plain (named "HTTPLog") = Ok "h_t_t_p_logs".
Proof. repeat split. Qed.

Lemma del_set_absent (V : Type) (k : string) (v : V) (d : sdict V) :
  Py.get k d = None -> Py.del k (Py.set k v d) = d.
Proof.
  induction d as [|[k0 v0] r IH]; simpl.
  - now rewrite keqb_refl.
  - destruct (Py.keqb k k0) eqn:E; [discriminate|].
    intros G. simpl. now rewrite E, IH.
Qed.

Lemma mem_set_same (V : Type) (k : string) (v : V) (d : sdict V) :
  Py.mem k (Py.set k v d) = true.
Proof. unfold Py.mem. now rewrite get_set_same. Qed.

(** X24.  For a public name that is neither an item nor an attribute of
    the instance, [del self.k] after [self.k = v] gives the instance
    back as it was, whether [k] is ignored or not. *)
Theorem X24_delattr_undoes_setattr :
  forall self key v,
    Py.startswith key "_" = false ->
    Py.get key (__dict__ self) = None ->
    Py.get key (_items self) = None ->
    Model.__delattr__ (Model.__setattr__ self key v) key = Ok self.
Proof.
  intros self key v P GD GI.
  unfold Model.__setattr__, Model.__delattr__, Model.object_delattr. rewrite P.
  simpl orb.
  destruct (Py.str_in key _);
    cbn [__dict__ _items with_dict with_items].
  - rewrite mem_set_same. cbn [__dict__ with_dict].
    rewrite del_set_absent by exact GD. now destruct self.
  - unfold Py.mem at 1. rewrite GD. rewrite mem_set_same.
    cbn [_items with_items]. rewrite del_set_absent by exact GI. now destruct self.
Qed.

Lemma X24_witness :
  Model.__delattr__ (Model.__setattr__ Samples.person_42 "nick" (VStr "x")) "nick"
  = Ok Samples.person_42.
Proof.
  exact (@X24_delattr_undoes_setattr Samples.person_42 "nick" (VStr "x")
           eq_refl eq_refl eq_refl).
Defined.

(** ** The bootstrapping metadata *)

Section MetadataFacts.
Variables Lg Lp : Type.
Variable DefaultLogger : Lg.
Variable new_event_loop : option Lp.
Variable get_event_loop : Lp.
Implicit Types (self s : metadata._BootstrappingMetadata Lg Lp).

Lemma post_bootstrap_sets_all self :
  let s1 := metadata._post_bootstrap DefaultLogger new_event_loop get_event_loop self in
  metadata._bootstrapped s1 = true
  /\ exists lg lp pre,
       metadata._logger s1 = Some lg
       /\ metadata._loop s1 = Some lp
       /\ metadata.logger_calls s1 = (pre ++ [(lg, metadata.told_loop lp)])%list
       /\ (forall l, metadata._logger self = Some l -> lg = l)
       /\ (forall l, metadata._loop self = Some l -> lp = l).
Proof.
  unfold metadata._post_bootstrap, metadata.logger, metadata.loop.
  destruct self as [b [lg|] [lp|] calls]; simpl;
    try destruct new_event_loop as [u|]; simpl;
    (split; [reflexivity|]); do 3 eexists;
    repeat (split; [reflexivity|]);
    split; intros l E; congruence.
Qed.

Lemma after_frozen s u lg lp :
  metadata._bootstrapped s = true ->
  metadata._logger s = Some lg ->
  metadata._loop s = Some lp ->
  let s' := metadata.after DefaultLogger new_event_loop get_event_loop s u in
  metadata._bootstrapped s' = true
  /\ metadata._logger s' = Some lg
  /\ metadata._loop s' = Some lp.
Proof.
  intros B G P. destruct s as [b l1 l2 calls]. simpl in B, G, P. subst.
  destruct u; simpl; auto.
Qed.

Lemma uses_frozen uses : forall s lg lp,
  metadata._bootstrapped s = true ->
  metadata._logger s = Some lg ->
  metadata._loop s = Some lp ->
  let s' := fold_left (metadata.after DefaultLogger new_event_loop get_event_loop)
              uses s in
  metadata._bootstrapped s' = true
  /\ metadata._logger s' = Some lg
  /\ metadata._loop s' = Some lp.
Proof.
  induction uses as [|u r IH]; intros s lg lp B G P; simpl; [auto|].
  destruct (@after_frozen s u lg lp B G P) as (B' & G' & P'). now apply IH.
Qed.

(** X25.  Bootstrapping freezes the object: whatever is read or called
    after [_post_bootstrap], the flag stays set, the logger and the loop
    stay the ones of that moment, and both setters raise [TypeError]. *)
Theorem X25_nothing_changes_after_bootstrap :
  forall self uses,
    let s1 := metadata._post_bootstrap DefaultLogger new_event_loop get_event_loop self in
    let s2 := fold_left (metadata.after DefaultLogger new_event_loop get_event_loop)
                uses s1 in
    metadata.bootstrapped s2 = true
    /\ metadata._logger s2 = metadata._logger s1
    /\ metadata._loop s2 = metadata._loop s1
    /\ (forall l, metadata.set_logger s2 l = Raise TypeError)
    /\ (forall l, metadata.set_loop s2 l = Raise TypeError).
Proof.
  intros self uses s1 s2.
  destruct (post_bootstrap_sets_all self) as (B & lg & lp & _ & G & P & _).
  fold s1 in B, G, P.
  destruct (@uses_frozen uses s1 lg lp B G P) as (B2 & G2 & P2).
  fold s2 in B2, G2, P2.
  unfold metadata.bootstrapped, metadata.set_logger, metadata.set_loop,
    metadata._throw_if_bootstrapped.
  rewrite B2, G2, P2, G, P. repeat split.
Qed.

(** X26.  [_post_bootstrap] ends by handing the loop in use to the
    logger in use: a logger or a loop that was set before is that one,
    and both are set afterwards. *)
Theorem X26_bootstrap_hands_the_loop_to_the_logger :
  forall self,
    let s1 := metadata._post_bootstrap DefaultLogger new_event_loop get_event_loop self in
    exists lg lp earlier,
      metadata._logger s1 = Some lg
      /\ metadata._loop s1 = Some lp
      /\ metadata.logger_calls s1
         = (earlier ++ [(lg, metadata.told_loop lp)])%list
      /\ (forall l, metadata._logger self = Some l -> lg = l)
      /\ (forall l, metadata._loop self = Some l -> lp = l).
Proof. intros self. now destruct (post_bootstrap_sets_all self) as [_ H]. Qed.

End MetadataFacts.
